(** * pycardano/key.py: cryptographic keys, their JSON interchange form,
      hashing and key pairs.

    A shallow embedding of [pycardano/key.py].  Python classes become an
    enumeration of class tags plus a record of instance attributes; methods
    become functions over that record; exceptions become the [Raise] branch of
    a small outcome monad.  The libraries the module calls into (json, cbor2,
    PyNaCl) are interfaces with the laws the code relies on. *)

From Stdlib Require Import ZArith NArith Ascii String Lia.
From Stdlib.Strings Require Import Byte.
From stdpp Require Import base option list strings gmap.

(** ** Bytes *)

Abbreviation bytes := (list byte).

#[global] Instance byte_eq_decision : EqDecision byte := byte_eq_dec.

(** ** Values returned by json.loads *)

#[warnings="-register-all"] Inductive json_value :=
  | JNull
  | JBool (b : bool)
  | JNumber (n : Z)
  | JString (s : string)
  | JArray (xs : list json_value)
  | JObject (m : gmap string json_value).

(** ** External collaborators *)

(** The json module, at the types key.py uses it: [json.dumps] is applied to a
    dict whose keys and values are str, [json.loads] to arbitrary text. *)
Class Json := {
  json_dumps : gmap string string → string;
  json_loads : string → option json_value;
  json_loads_dumps (d : gmap string string) :
    json_loads (json_dumps d) = Some (JObject (JString <$> d))
}.

(** cbor2 on byte strings.  [cbor_loads] is [None] both for malformed input and
    for an item that is not a byte string.  A definite-length byte string
    carries its length in at most eight bytes. *)
Definition cbor_max_length : N := 2 ^ 64.

Class Cbor := {
  cbor_dumps : bytes → bytes;
  cbor_loads : bytes → option bytes;
  cbor_loads_dumps (b : bytes) :
    (N.of_nat (length b) < cbor_max_length)%N → cbor_loads (cbor_dumps b) = Some b
}.

(** nacl.hash.blake2b with [encoder=RawEncoder]: the digest of [data], of
    [digest_size] bytes. *)
Class Blake2b := {
  blake2b : bytes → nat → bytes;
  blake2b_length (data : bytes) (digest_size : nat) :
    1 ≤ digest_size ≤ 64 → length (blake2b data digest_size) = digest_size
}.

(** The Ed25519 primitive behind nacl.signing: the public key of a seed and
    the detached signature of a message under a seed. *)
Class Ed25519 := {
  crypto_sign_seed_keypair : bytes → bytes;
  crypto_sign_detached : bytes → bytes → bytes;
  crypto_sign_publickey_length (seed : bytes) :
    length seed = 32 → length (crypto_sign_seed_keypair seed) = 32
}.

(** ** bytes.hex and bytes.fromhex *)

Definition hex_digit (n : N) : ascii :=
  if (n <? 10)%N then ascii_of_N (48 + n) else ascii_of_N (87 + n).

Definition hex_of_byte (b : byte) : string :=
  String (hex_digit (to_N b / 16)) (String (hex_digit (to_N b mod 16)) "").

Fixpoint hex (bs : bytes) : string :=
  match bs with
  | [] => ""
  | b :: rest => hex_of_byte b +:+ hex rest
  end.

Definition hex_value (c : ascii) : option N :=
  let n := N_of_ascii c in
  if (48 <=? n)%N && (n <=? 57)%N then Some (n - 48)%N
  else if (97 <=? n)%N && (n <=? 102)%N then Some (n - 87)%N
  else if (65 <=? n)%N && (n <=? 70)%N then Some (n - 55)%N
  else None.

(** ASCII whitespace: space, \t, \n, \v, \f, \r. *)
Definition is_space (c : ascii) : bool :=
  let n := N_of_ascii c in
  (n =? 32)%N || ((9 <=? n)%N && (n <=? 13)%N).

(** [bytes.fromhex]: two hexadecimal digits per byte, whitespace between bytes
    skipped; [None] stands for ValueError. *)
Fixpoint fromhex (s : string) : option bytes :=
  match s with
  | "" => Some []
  | String c r =>
      if is_space c then fromhex r
      else
        match r with
        | "" => None
        | String d r' =>
            hi ← hex_value c;
            lo ← hex_value d;
            b ← of_N (16 * hi + lo);
            rest ← fromhex r';
            Some (b :: rest)
        end
  end.

(** ** The Key class hierarchy *)

Inductive KeyClass :=
  | Key
  | AddressKey
  | SigningKey
  | PaymentSigningKey
  | PaymentVerificationKey
  | StakeSigningKey
  | StakeVerificationKey.

#[global] Instance KeyClass_eq_decision : EqDecision KeyClass.
Proof. solve_decision. Defined.

(** The direct base class of each class in the module ([Key] derives from
    CBORSerializable, outside the hierarchy). *)
Definition base (c : KeyClass) : option KeyClass :=
  match c with
  | Key => None
  | AddressKey | SigningKey => Some Key
  | PaymentSigningKey | StakeSigningKey => Some SigningKey
  | PaymentVerificationKey | StakeVerificationKey => Some AddressKey
  end.

(** Class attributes as written in each class body. *)
Definition own_KEY_TYPE (c : KeyClass) : option string :=
  match c with
  | Key => Some ""
  | AddressKey | SigningKey => None
  | PaymentSigningKey => Some "PaymentSigningKeyShelley_ed25519"
  | PaymentVerificationKey => Some "PaymentVerificationKeyShelley_ed25519"
  | StakeSigningKey => Some "StakeSigningKeyShelley_ed25519"
  | StakeVerificationKey => Some "StakeVerificationKeyShelley_ed25519"
  end.

Definition own_DESCRIPTION (c : KeyClass) : option string :=
  match c with
  | Key => Some ""
  | AddressKey | SigningKey => None
  | PaymentSigningKey => Some "Payment Verification Key"
  | PaymentVerificationKey => Some "Payment Verification Key"
  | StakeSigningKey => Some "Stake Verification Key"
  | StakeVerificationKey => Some "Stake Verification Key"
  end.

(** Attribute lookup along the chain of base classes; the hierarchy is three
    levels deep. *)
Fixpoint class_attr (own : KeyClass → option string) (depth : nat) (c : KeyClass) : string :=
  match own c with
  | Some v => v
  | None =>
      match depth, base c with
      | S d, Some b => class_attr own d b
      | _, _ => ""
      end
  end.

Definition KEY_TYPE (c : KeyClass) : string := class_attr own_KEY_TYPE 2 c.
Definition DESCRIPTION (c : KeyClass) : string := class_attr own_DESCRIPTION 2 c.

Fixpoint issubclass_upto (depth : nat) (c parent : KeyClass) : bool :=
  bool_decide (c = parent) ||
  match depth, base c with
  | S d, Some b => issubclass_upto d b parent
  | _, _ => false
  end.

Definition issubclass (c parent : KeyClass) : bool := issubclass_upto 2 c parent.

(** The four leaf classes. *)
Definition concrete (c : KeyClass) : bool :=
  match c with
  | PaymentSigningKey | PaymentVerificationKey
  | StakeSigningKey | StakeVerificationKey => true
  | _ => false
  end.

(** An instance: its class and the three attributes [__init__] sets. *)
Record KeyObject := {
  cls : KeyClass;
  _payload : bytes;
  _key_type : string;
  _description : string
}.

(** [x or y] for [x] an optional str: None and the empty string are falsy. *)
Definition py_or (x : option string) (y : string) : string :=
  match x with
  | None => y
  | Some "" => y
  | Some s => s
  end.

(** [Key.__init__]; both fallbacks read [self.KEY_TYPE], as the source has
    them ([self._description = description or self.KEY_TYPE]). *)
Definition __init__ (c : KeyClass) (payload : bytes)
    (key_type description : option string) : KeyObject :=
  {| cls := c;
     _payload := payload;
     _key_type := py_or key_type (KEY_TYPE c);
     _description := py_or description (KEY_TYPE c) |}.

Definition payload (self : KeyObject) : bytes := _payload self.
Definition key_type (self : KeyObject) : string := _key_type self.
Definition description (self : KeyObject) : string := _description self.

Definition serialize (self : KeyObject) : bytes := payload self.

Definition deserialize (c : KeyClass) (value : bytes) : KeyObject :=
  __init__ c value None None.

(** ** Python exceptions and the outcome of a call *)

Inductive exception :=
  | JSONDecodeError          (* json.loads on malformed text *)
  | KeyError (k : string)    (* obj[k] on a dict without k *)
  | TypeError                (* subscripting or decoding a value of the wrong type *)
  | ValueError               (* bytes.fromhex on a non-hex string; nacl on a bad seed *)
  | CBORDecodeError          (* cbor2.loads on malformed data *)
  | InvalidKeyTypeException  (* pycardano.exception *)
  | AttributeError.          (* method looked up on a class that lacks it *)

(** A metadata attribute as a caller can leave it: [__init__] stores what it
    is given, so next to a str it can be any other truthy value.  The only
    caller in the module that passes such values is [from_json], which passes
    JSON values. *)
Inductive attribute :=
  | AStr (s : string)
  | AValue (v : json_value).

(** A key whose metadata is not known to be str. *)
Record RawKey := {
  raw_cls : KeyClass;
  raw_payload : bytes;
  raw_key_type : attribute;
  raw_description : attribute
}.

(** The outcome of a call: it returns a value, raises, or (for a call that
    returns a key) returns a key one of whose metadata attributes is not a
    str, which [KeyObject] cannot hold and [RawKey] describes. *)
Inductive result (A : Type) :=
  | Ok (a : A)
  | Raise (e : exception)
  | OkRaw (u : RawKey).
Arguments Ok {A} a.
Arguments Raise {A} e.
Arguments OkRaw {A} u.

(** Whether a call returned, with either kind of value. *)
Definition returns {A} (r : result A) : bool :=
  match r with
  | Raise _ => false
  | _ => true
  end.

#[global] Instance result_ret : MRet result := fun A a => Ok a.
#[global] Instance result_bind : MBind result := fun A B f m =>
  match m with
  | Ok a => f a
  | Raise e => Raise e
  | OkRaw u => OkRaw u
  end.

Definition or_raise {A} (e : exception) (o : option A) : result A :=
  match o with
  | Some a => Ok a
  | None => Raise e
  end.

(** ** CBORSerializable: to_cbor and from_cbor *)

Section codec.
Context `{!Json, !Cbor}.

(** Modelled from the spec: [CBORSerializable.to_cbor] lives in
    pycardano/serialization.py; it is the hex-encoded result of the binary
    encoder applied to the output of [serialize]. *)
Definition to_cbor (self : KeyObject) : string :=
  hex (cbor_dumps (serialize self)).

(** Modelled from the spec: [CBORSerializable.from_cbor] lives in
    pycardano/serialization.py; it hex-decodes its argument, binary-decodes the
    result and hands the decoded bytes to [deserialize]. *)
Definition from_cbor (c : KeyClass) (payload : string) : result KeyObject :=
  raw ← or_raise ValueError (fromhex payload);
  value ← or_raise CBORDecodeError (cbor_loads raw);
  Ok (deserialize c value).

(** ** JSON interchange *)

(** The dict literal [to_json] hands to [json.dumps]. *)
Definition to_json_dict (self : KeyObject) : gmap string string :=
  {[ "type" := key_type self;
     "description" := description self;
     "cborHex" := to_cbor self ]}.

Definition to_json (self : KeyObject) : string :=
  json_dumps (to_json_dict self).

(** [obj[k]] for [obj] a value returned by [json.loads]. *)
Definition getitem (obj : json_value) (k : string) : result json_value :=
  match obj with
  | JObject m => or_raise (KeyError k) (m !! k)
  | _ => Raise TypeError
  end.

(** [v != s] for [v] a JSON value and [s] a str. *)
Definition json_ne_str (v : json_value) (s : string) : bool :=
  match v with
  | JString t => negb (bool_decide (t = s))
  | _ => true
  end.

(** Truth value of a JSON value as Python sees it once loaded: None, False,
    0, the empty string, the empty list and the empty dict are falsy. *)
Definition truthy (v : json_value) : bool :=
  match v with
  | JNull => false
  | JBool b => b
  | JNumber n => negb (n =? 0)%Z
  | JString s => match s with "" => false | _ => true end
  | JArray xs => match xs with [] => false | _ => true end
  | JObject m => match map_to_list m with [] => false | _ => true end
  end.

(** A JSON value passed where [__init__] declares [str = None] and applies
    [or]: a string stands for itself, a falsy value of another type behaves
    as None, and a truthy value of another type is no optional str. *)
Definition as_optional_str (v : json_value) : option (option string) :=
  match v with
  | JString s => Some (Some s)
  | _ => if truthy v then None else Some None
  end.

(** [v or y] for [v] a JSON value and [y] a str. *)
Definition or_attribute (v : json_value) (y : string) : attribute :=
  match v with
  | JString s => AStr (py_or (Some s) y)
  | _ => if truthy v then AValue v else AStr y
  end.

(** [cls(payload, key_type=ty, description=desc)] for [ty] and [desc] values
    loaded from JSON: [Key.__init__] when both are optional strs, and the same
    assignments on a [RawKey] otherwise. *)
Definition init_from_json (c : KeyClass) (payload : bytes) (ty desc : json_value)
    : result KeyObject :=
  match as_optional_str ty, as_optional_str desc with
  | Some key_type, Some description => Ok (__init__ c payload key_type description)
  | _, _ =>
      OkRaw {| raw_cls := c;
               raw_payload := payload;
               raw_key_type := or_attribute ty (KEY_TYPE c);
               raw_description := or_attribute desc (KEY_TYPE c) |}
  end.

Definition as_str (v : json_value) : result string :=
  match v with
  | JString s => Ok s
  | _ => Raise TypeError
  end.

Definition from_json (c : KeyClass) (data : string) (validate_type : bool)
    : result KeyObject :=
  obj ← or_raise JSONDecodeError (json_loads data);
  _ ← (if validate_type then
         ty ← getitem obj "type";
         if json_ne_str ty (KEY_TYPE c) then Raise InvalidKeyTypeException
         else Ok tt
       else Ok tt);
  cborHex ← getitem obj "cborHex" ≫= as_str;
  k ← from_cbor c cborHex;
  ty ← getitem obj "type";
  desc ← getitem obj "description";
  init_from_json c (payload k) ty desc.

Definition __repr__ (self : KeyObject) : string := to_json self.

(** A well-formed key text with type field [ty], description [desc] and
    payload [p]: it parses to an object whose [type] and [description] are
    strings and whose [cborHex] is the hex form of a CBOR byte string. *)
Definition key_text (data ty desc : string) (p : bytes) : Prop :=
  ∃ (m : gmap string json_value) (cborHex : string) (raw : bytes),
    json_loads data = Some (JObject m)
    ∧ m !! "type" = Some (JString ty)
    ∧ m !! "description" = Some (JString desc)
    ∧ m !! "cborHex" = Some (JString cborHex)
    ∧ fromhex cborHex = Some raw
    ∧ cbor_loads raw = Some p.

End codec.

(** ** Equality *)

(** The Python values a key can be compared with. *)
Inductive py_object :=
  | PyKey (k : KeyObject)
  | PyNone
  | PyBool (b : bool)
  | PyInt (n : Z)
  | PyStr (s : string)
  | PyBytes (b : bytes).

Definition isinstance_Key (o : py_object) : bool :=
  match o with
  | PyKey _ => true
  | _ => false
  end.

Definition __eq__ (self : KeyObject) (other : py_object) : bool :=
  match other with
  | PyKey other =>
      bool_decide (payload self = payload other)
      && bool_decide (description self = description other)
      && bool_decide (key_type self = key_type other)
  | _ => false
  end.

(** ** AddressKey.hash and SigningKey.sign *)

(** Modelled from the spec: [ADDR_KEYHASH_SIZE] and [AddrKeyHash] live in
    pycardano/hash.py; an address-key hash is a 28-byte digest. *)
Definition ADDR_KEYHASH_SIZE : nat := 28.

Record AddrKeyHash := { hash_payload : bytes }.

(** [self.hash()]: the method exists on [AddressKey] and its subclasses. *)
Definition hash `{!Blake2b} (self : KeyObject) : result AddrKeyHash :=
  if issubclass (cls self) AddressKey
  then Ok {| hash_payload := blake2b (payload self) ADDR_KEYHASH_SIZE |}
  else Raise AttributeError.

(** [nacl.signing.SigningKey(seed)]: the seed must be 32 bytes long. *)
Record NACLSigningKey_t := {
  _seed : bytes;
  verify_key : bytes
}.

Definition crypto_sign_SEEDBYTES : nat := 32.

Definition NACLSigningKey `{!Ed25519} (seed : bytes) : result NACLSigningKey_t :=
  if bool_decide (length seed = crypto_sign_SEEDBYTES)
  then Ok {| _seed := seed; verify_key := crypto_sign_seed_keypair seed |}
  else Raise ValueError.

Definition sign `{!Ed25519} (self : KeyObject) (data : bytes) : result bytes :=
  if issubclass (cls self) SigningKey
  then k ← NACLSigningKey (payload self);
       Ok (crypto_sign_detached (_seed k) data)
  else Raise AttributeError.

(** ** Key pairs *)

Module PaymentKeyPair.

Record t := {
  signing_key : KeyObject;
  verification_key : KeyObject
}.

Definition __init__ (signing_key verification_key : bytes) : t :=
  {| signing_key := __init__ PaymentSigningKey signing_key None None;
     verification_key := __init__ PaymentVerificationKey verification_key None None |}.

Definition from_private_key `{!Ed25519} (signing_key : bytes) : result t :=
  k ← NACLSigningKey signing_key;
  Ok (__init__ signing_key (verify_key k)).

(** [generate], with the 32 bytes drawn by [PrivateKey.generate] as input. *)
Definition generate `{!Ed25519} (random : bytes) : result t :=
  from_private_key random.

End PaymentKeyPair.

Module StakeKeyPair.

Record t := {
  signing_key : KeyObject;
  verification_key : KeyObject
}.

Definition __init__ (signing_key verification_key : bytes) : t :=
  {| signing_key := __init__ StakeSigningKey signing_key None None;
     verification_key := __init__ StakeVerificationKey verification_key None None |}.

Definition from_private_key `{!Ed25519} (signing_key : bytes) : result t :=
  k ← NACLSigningKey signing_key;
  Ok (__init__ signing_key (verify_key k)).

Definition generate `{!Ed25519} (random : bytes) : result t :=
  from_private_key random.

End StakeKeyPair.

(** ** A CBOR encoder and decoder for byte strings

    Major type 2 of RFC 8949 with a definite length: the head byte carries the
    major type in its three high bits and, in its five low bits, either the
    length itself (below 24) or the width of the big-endian length that
    follows (24, 25, 26, 27 for one, two, four, eight bytes). *)

Definition byte_of_N (n : N) : byte := default x00 (of_N n).

Fixpoint be_bytes (width : nat) (n : N) : bytes :=
  match width with
  | 0 => []
  | S w => byte_of_N ((n / 256 ^ N.of_nat w) mod 256) :: be_bytes w n
  end.

Definition be_value (bs : bytes) : N :=
  fold_left (λ acc b, acc * 256 + to_N b)%N bs 0%N.

Definition cbor_head (major arg : N) : bytes :=
  if (arg <? 24)%N then [byte_of_N (major * 32 + arg)]
  else if (arg <? 2 ^ 8)%N then byte_of_N (major * 32 + 24) :: be_bytes 1 arg
  else if (arg <? 2 ^ 16)%N then byte_of_N (major * 32 + 25) :: be_bytes 2 arg
  else if (arg <? 2 ^ 32)%N then byte_of_N (major * 32 + 26) :: be_bytes 4 arg
  else byte_of_N (major * 32 + 27) :: be_bytes 8 arg.

Definition cbor_encode_bytes (b : bytes) : bytes :=
  cbor_head 2 (N.of_nat (length b)) ++ b.

(** Read exactly [n] bytes, or fail on a premature end of input. *)
Definition read (n : nat) (bs : bytes) : option (bytes * bytes) :=
  if decide (n ≤ length bs) then Some (take n bs, drop n bs) else None.

Definition cbor_arg_width (info : N) : option nat :=
  match info with
  | 24%N => Some 1
  | 25%N => Some 2
  | 26%N => Some 4
  | 27%N => Some 8
  | _ => None
  end.

Definition cbor_decode_head (bs : bytes) : option (N * N * bytes) :=
  match bs with
  | [] => None
  | ib :: rest =>
      let major := (to_N ib / 32)%N in
      let info := (to_N ib mod 32)%N in
      if (info <? 24)%N then Some (major, info, rest)
      else
        w ← cbor_arg_width info;
        '(a, rest') ← read w rest;
        Some (major, be_value a, rest')
  end.

(** Decode one item and require it to be a byte string; bytes after the item
    are left unread. *)
Definition cbor_decode_bytes (bs : bytes) : option bytes :=
  '(major, arg, rest) ← cbor_decode_head bs;
  if (major =? 2)%N then fst <$> read (N.to_nat arg) rest else None.

(** ** A JSON writer and reader for objects of strings

    The writer follows [json.dumps] with its defaults: members separated by
    a comma and a space, key and value by a colon and a space, every
    character outside the printable ASCII range escaped.  The reader is a
    character automaton for objects whose values are strings; characters are
    those of [string], with codes below 256. *)

Definition dquote : ascii := "034"%char.
Definition backslash : ascii := "\"%char.

Definition hex4 (n : N) : string :=
  String (hex_digit ((n / 4096) mod 16))
    (String (hex_digit ((n / 256) mod 16))
       (String (hex_digit ((n / 16) mod 16))
          (String (hex_digit (n mod 16)) ""))).

Definition escape_char (c : ascii) : string :=
  let n := N_of_ascii c in
  if (n =? 34)%N then String backslash (String dquote "")
  else if (n =? 92)%N then "\\"
  else if (n =? 10)%N then "\n"
  else if (n =? 13)%N then "\r"
  else if (n =? 9)%N then "\t"
  else if (n =? 12)%N then "\f"
  else if (n =? 8)%N then "\b"
  else if (32 <=? n)%N && (n <=? 126)%N then String c ""
  else "\u" +:+ hex4 n.

Fixpoint escape (s : string) : string :=
  match s with
  | "" => ""
  | String c r => escape_char c +:+ escape r
  end.

Definition json_quote (s : string) : string :=
  String dquote (escape s +:+ String dquote "").

Definition dump_member (kv : string * string) : string :=
  json_quote kv.1 +:+ ": " +:+ json_quote kv.2.

Fixpoint dump_members (l : list (string * string)) : string :=
  match l with
  | [] => ""
  | kv :: rest =>
      match rest with
      | [] => dump_member kv
      | _ => dump_member kv +:+ ", " +:+ dump_members rest
      end
  end.

Definition flat_json_dumps (d : gmap string string) : string :=
  "{" +:+ dump_members (map_to_list d) +:+ "}".

(** Where the reader is inside a string literal. *)
Inductive esc_state :=
  | Plain
  | Escaped
  | Unicode (count : nat) (acc : N).

Inductive target :=
  | InKey
  | InValue (key : string).

Inductive phase :=
  | BeforeObject
  | AfterOpen
  | InString (w : target) (buf : string) (e : esc_state)
  | AfterKey (key : string)
  | BeforeValue (key : string)
  | AfterValue
  | BeforeKey
  | Done.

(** The members read so far, the most recent first. *)
Record pstate := {
  ph : phase;
  members : list (string * string)
}.

Definition json_space (c : ascii) : bool :=
  let n := N_of_ascii c in
  (n =? 32)%N || (n =? 9)%N || (n =? 10)%N || (n =? 13)%N.

Definition push (buf : string) (c : ascii) : string := buf +:+ String c "".

Definition close_string (w : target) (buf : string) (ms : list (string * string)) : pstate :=
  match w with
  | InKey => {| ph := AfterKey buf; members := ms |}
  | InValue key => {| ph := AfterValue; members := (key, buf) :: ms |}
  end.

Definition unescape (c : ascii) : option ascii :=
  match N_of_ascii c with
  | 34%N => Some dquote
  | 92%N => Some backslash
  | 47%N => Some "/"%char
  | 98%N => Some (ascii_of_N 8)
  | 102%N => Some (ascii_of_N 12)
  | 110%N => Some (ascii_of_N 10)
  | 114%N => Some (ascii_of_N 13)
  | 116%N => Some (ascii_of_N 9)
  | _ => None
  end.

Definition step_string (w : target) (buf : string) (e : esc_state)
    (ms : list (string * string)) (c : ascii) : option pstate :=
  let n := N_of_ascii c in
  match e with
  | Plain =>
      if (n =? 34)%N then Some (close_string w buf ms)
      else if (n =? 92)%N then Some {| ph := InString w buf Escaped; members := ms |}
      else if (n <? 32)%N then None
      else Some {| ph := InString w (push buf c) Plain; members := ms |}
  | Escaped =>
      if (n =? 117)%N then Some {| ph := InString w buf (Unicode 0 0); members := ms |}
      else
        d ← unescape c;
        Some {| ph := InString w (push buf d) Plain; members := ms |}
  | Unicode count acc =>
      d ← hex_value c;
      let acc' := (acc * 16 + d)%N in
      if bool_decide (count = 3) then
        if (acc' <? 256)%N
        then Some {| ph := InString w (push buf (ascii_of_N acc')) Plain; members := ms |}
        else None
      else Some {| ph := InString w buf (Unicode (S count) acc'); members := ms |}
  end.

Definition step (st : pstate) (c : ascii) : option pstate :=
  let n := N_of_ascii c in
  let ms := members st in
  match ph st with
  | InString w buf e => step_string w buf e ms c
  | p =>
      if json_space c then Some st
      else
        match p with
        | BeforeObject =>
            if (n =? 123)%N then Some {| ph := AfterOpen; members := ms |} else None
        | AfterOpen =>
            if (n =? 34)%N then Some {| ph := InString InKey "" Plain; members := ms |}
            else if (n =? 125)%N then Some {| ph := Done; members := ms |}
            else None
        | AfterKey key =>
            if (n =? 58)%N then Some {| ph := BeforeValue key; members := ms |} else None
        | BeforeValue key =>
            if (n =? 34)%N then Some {| ph := InString (InValue key) "" Plain; members := ms |}
            else None
        | AfterValue =>
            if (n =? 44)%N then Some {| ph := BeforeKey; members := ms |}
            else if (n =? 125)%N then Some {| ph := Done; members := ms |}
            else None
        | BeforeKey =>
            if (n =? 34)%N then Some {| ph := InString InKey "" Plain; members := ms |}
            else None
        | _ => None
        end
  end.

Fixpoint run (st : pstate) (s : string) : option pstate :=
  match s with
  | "" => Some st
  | String c r => st' ← step st c; run st' r
  end.

(** A key that occurs twice keeps its last value, as in a Python dict. *)
Definition flat_json_loads (s : string) : option json_value :=
  st ← run {| ph := BeforeObject; members := [] |} s;
  match ph st with
  | Done => Some (JObject (JString <$> (list_to_map (members st) : gmap string string)))
  | _ => None
  end.

(** ** Sample inputs *)

Definition sample_payload : bytes := [x01; x02; x03].

Definition sample_seed : bytes := replicate 32 x07.

(** The key file of a stake signing key whose payload is [sample_payload]. *)
Definition sample_dict : gmap string string :=
  {[ "type" := "StakeSigningKeyShelley_ed25519";
     "description" := "Stake Signing Key";
     "cborHex" := "43010203" ]}.

Definition sample_key_text : string := flat_json_dumps sample_dict.

(** The key that [sample_key_text] describes, as a stake signing key. *)
Definition sample_key : KeyObject :=
  __init__ StakeSigningKey sample_payload
    (Some "StakeSigningKeyShelley_ed25519") (Some "Stake Signing Key").

(** The same file without its cborHex field. *)
Definition sample_dict_no_cborHex : gmap string string :=
  {[ "type" := "StakeSigningKeyShelley_ed25519";
     "description" := "Stake Signing Key" ]}.

Definition sample_text_no_cborHex : string := flat_json_dumps sample_dict_no_cborHex.

(** The same file with one more field. *)
Definition sample_dict_with_comment : gmap string string :=
  <[ "comment" := "generated" ]> sample_dict.

Definition sample_text_with_comment : string := flat_json_dumps sample_dict_with_comment.

(** The same file with a number for a description, as text and as the
    object [json.loads] makes of it, and the key [from_json] returns for it. *)
Definition sample_text_numeric_description : string :=
  " {" +:+ json_quote "type" +:+ ": " +:+ json_quote "StakeSigningKeyShelley_ed25519"
  +:+ ", " +:+ json_quote "description" +:+ ": 5, "
  +:+ json_quote "cborHex" +:+ ": " +:+ json_quote "43010203" +:+ "}".

Definition sample_object_numeric_description : json_value :=
  JObject {[ "type" := JString "StakeSigningKeyShelley_ed25519";
             "description" := JNumber 5;
             "cborHex" := JString "43010203" ]}.

Definition sample_raw_key : RawKey :=
  {| raw_cls := StakeSigningKey;
     raw_payload := sample_payload;
     raw_key_type := AStr "StakeSigningKeyShelley_ed25519";
     raw_description := AValue (JNumber 5) |}.

(** A reader that also knows [sample_text_numeric_description], which the
    reader for objects of strings rejects. *)
Definition numeric_json_loads (s : string) : option json_value :=
  if decide (s = sample_text_numeric_description)
  then Some sample_object_numeric_description
  else flat_json_loads s.

(** The same file with an empty type. *)
Definition sample_dict_empty_type : gmap string string :=
  {[ "type" := "";
     "description" := "Stake Signing Key";
     "cborHex" := "43010203" ]}.

Definition sample_text_empty_type : string := flat_json_dumps sample_dict_empty_type.

(** * Properties of the codecs *)

(** ** Hexadecimal text *)

Lemma fromhex_hex_of_byte (b : byte) (s : string) :
  fromhex (hex_of_byte b +:+ s) = rest ← fromhex s; Some (b :: rest).
Proof. destruct b; reflexivity. Qed.

Lemma fromhex_hex (bs : bytes) : fromhex (hex bs) = Some bs.
Proof.
  induction bs as [|b bs IH]; [done|].
  simpl hex. rewrite fromhex_hex_of_byte, IH. done.
Qed.

Example hex_sample : hex [x00; x0a; xff] = "000aff".
Proof. reflexivity. Qed.

Example fromhex_spaced : fromhex "00 0A ff" = Some [x00; x0a; xff].
Proof. reflexivity. Qed.

Example fromhex_odd : fromhex "000" = None.
Proof. reflexivity. Qed.

(** ** CBOR byte strings *)

Example cbor_encode_sample : hex (cbor_encode_bytes sample_payload) = "43010203".
Proof. reflexivity. Qed.

Example cbor_encode_one_byte_length :
  take 2 (cbor_encode_bytes (replicate 32 x00)) = [x58; x20].
Proof. reflexivity. Qed.

Example cbor_decode_text_string : cbor_decode_bytes [x63; x61; x62; x63] = None.
Proof. reflexivity. Qed.

Lemma to_N_byte_of_N (n : N) : (n < 256)%N → to_N (byte_of_N n) = n.
Proof.
  intros Hn. unfold byte_of_N.
  destruct (of_N n) as [b|] eqn:E; simpl.
  - by apply to_of_N.
  - apply of_N_None_iff in E. lia.
Qed.

Lemma be_value_snoc (bs : bytes) (b : byte) :
  be_value (bs ++ [b]) = (be_value bs * 256 + to_N b)%N.
Proof. unfold be_value. by rewrite fold_left_app. Qed.

Lemma fold_be_bytes (w : nat) (n acc : N) :
  fold_left (λ acc b, acc * 256 + to_N b)%N (be_bytes w n) acc
  = (acc * 256 ^ N.of_nat w + n mod 256 ^ N.of_nat w)%N.
Proof.
  revert acc. induction w as [|w IH]; intros acc.
  - simpl. rewrite N.mod_1_r. lia.
  - cbn [be_bytes fold_left]. rewrite IH.
    rewrite to_N_byte_of_N by (apply N.mod_upper_bound; lia).
    rewrite Nat2N.inj_succ, N.pow_succ_r'.
    rewrite (N.mul_comm 256 (256 ^ N.of_nat w)).
    rewrite (N.Div0.mod_mul_r n (256 ^ N.of_nat w) 256). lia.
Qed.

Lemma be_value_be_bytes (w : nat) (n : N) :
  (n < 256 ^ N.of_nat w)%N → be_value (be_bytes w n) = n.
Proof.
  intros Hn. unfold be_value. rewrite fold_be_bytes.
  rewrite N.mod_small by done. lia.
Qed.

Lemma length_be_bytes (w : nat) (n : N) : length (be_bytes w n) = w.
Proof. induction w; simpl; congruence. Qed.

Lemma read_app (a rest : bytes) : read (length a) (a ++ rest) = Some (a, rest).
Proof.
  unfold read. rewrite decide_True by (rewrite length_app; lia).
  by rewrite take_app_length, drop_app_length.
Qed.

Lemma cbor_initial_byte (major info : N) :
  (major < 8)%N → (info < 32)%N →
  (to_N (byte_of_N (major * 32 + info)) / 32)%N = major
  ∧ (to_N (byte_of_N (major * 32 + info)) mod 32)%N = info.
Proof.
  intros Hm Hi. rewrite to_N_byte_of_N by lia. split; symmetry.
  - apply (N.div_unique _ 32 major info); lia.
  - apply (N.mod_unique _ 32 major info); lia.
Qed.

Lemma cbor_decode_head_short (major arg : N) (rest : bytes) :
  (major < 8)%N → (arg < 24)%N →
  cbor_decode_head (byte_of_N (major * 32 + arg) :: rest) = Some (major, arg, rest).
Proof.
  intros Hm Ha. unfold cbor_decode_head.
  destruct (cbor_initial_byte major arg) as [-> ->]; [lia..|].
  by rewrite (proj2 (N.ltb_lt _ _) Ha).
Qed.

Lemma cbor_decode_head_wide (major info arg : N) (w : nat) (rest : bytes) :
  (major < 8)%N → cbor_arg_width info = Some w → (arg < 256 ^ N.of_nat w)%N →
  cbor_decode_head (byte_of_N (major * 32 + info) :: be_bytes w arg ++ rest)
  = Some (major, arg, rest).
Proof.
  intros Hm Hw Ha. unfold cbor_decode_head.
  assert (24 ≤ info < 28)%N as Hi.
  { unfold cbor_arg_width in Hw. repeat case_match; simplify_eq; lia. }
  destruct (cbor_initial_byte major info) as [-> ->]; [lia..|].
  rewrite (proj2 (N.ltb_ge _ _)) by lia. rewrite Hw. cbn [mbind option_bind].
  rewrite <-(length_be_bytes w arg) at 1. rewrite read_app. cbn.
  by rewrite be_value_be_bytes.
Qed.

Lemma cbor_decode_head_head (major arg : N) (rest : bytes) :
  (major < 8)%N → (arg < 2 ^ 64)%N →
  cbor_decode_head (cbor_head major arg ++ rest) = Some (major, arg, rest).
Proof.
  intros Hm Harg. unfold cbor_head.
  repeat case_match;
    repeat match goal with
           | H : (_ <? _)%N = true |- _ => apply N.ltb_lt in H
           | H : (_ <? _)%N = false |- _ => apply N.ltb_ge in H
           end;
    rewrite <-app_comm_cons.
  - by apply cbor_decode_head_short.
  - by apply cbor_decode_head_wide.
  - by apply cbor_decode_head_wide.
  - by apply cbor_decode_head_wide.
  - by apply cbor_decode_head_wide.
Qed.

Lemma cbor_decode_encode_trailing (b trailing : bytes) :
  (N.of_nat (length b) < cbor_max_length)%N →
  cbor_decode_bytes (cbor_encode_bytes b ++ trailing) = Some b.
Proof.
  intros Hlen. unfold cbor_decode_bytes, cbor_encode_bytes.
  rewrite <-app_assoc, cbor_decode_head_head by (done || lia).
  cbn [mbind option_bind N.eqb Pos.eqb].
  by rewrite Nat2N.id, read_app.
Qed.

Lemma cbor_decode_encode_bytes (b : bytes) :
  (N.of_nat (length b) < cbor_max_length)%N →
  cbor_decode_bytes (cbor_encode_bytes b) = Some b.
Proof.
  intros Hlen. rewrite <-(app_nil_r (cbor_encode_bytes b)).
  by apply cbor_decode_encode_trailing.
Qed.

(** ** JSON objects of strings *)

Lemma append_nil_l (s : string) : "" +:+ s = s.
Proof. reflexivity. Qed.

Lemma append_cons (c : ascii) (s t : string) : String c s +:+ t = String c (s +:+ t).
Proof. reflexivity. Qed.

Lemma append_nil_r (s : string) : s +:+ "" = s.
Proof. induction s as [|c s IH]; [done|]. by rewrite append_cons, IH. Qed.

Lemma run_cons (st : pstate) (c : ascii) (s : string) :
  run st (String c s) = st' ← step st c; run st' s.
Proof. reflexivity. Qed.

Lemma run_app (st : pstate) (s1 s2 : string) :
  run st (s1 +:+ s2) = st' ← run st s1; run st' s2.
Proof.
  revert st. induction s1 as [|c s1 IH]; intros st; [reflexivity|].
  rewrite append_cons, !run_cons.
  destruct (step st c) as [st'|]; [apply IH|reflexivity].
Qed.

Lemma push_app (buf : string) (c : ascii) (s : string) :
  push buf c +:+ s = buf +:+ String c s.
Proof.
  unfold push. induction buf as [|b buf IH]; [reflexivity|].
  by rewrite !append_cons, IH.
Qed.

Lemma run_escape_char (w : target) (buf : string) (ms : list (string * string)) (c : ascii) :
  run {| ph := InString w buf Plain; members := ms |} (escape_char c)
  = Some {| ph := InString w (push buf c) Plain; members := ms |}.
Proof. destruct c as [[] [] [] [] [] [] [] []]; reflexivity. Qed.

Lemma run_escape (w : target) (buf : string) (ms : list (string * string)) (s : string) :
  run {| ph := InString w buf Plain; members := ms |} (escape s)
  = Some {| ph := InString w (buf +:+ s) Plain; members := ms |}.
Proof.
  revert buf. induction s as [|c s IH]; intros buf.
  - by rewrite append_nil_r.
  - cbn [escape]. rewrite run_app, run_escape_char. cbn [mbind option_bind].
    by rewrite IH, push_app.
Qed.

(** Reading a quoted string that starts a key or a value. *)
Lemma run_quote_key (p : phase) (ms : list (string * string)) (s : string) :
  p = AfterOpen ∨ p = BeforeKey →
  run {| ph := p; members := ms |} (json_quote s)
  = Some {| ph := AfterKey s; members := ms |}.
Proof.
  intros Hp. unfold json_quote. rewrite run_cons.
  assert (step {| ph := p; members := ms |} dquote
          = Some {| ph := InString InKey "" Plain; members := ms |}) as ->
    by (destruct Hp as [-> | ->]; reflexivity).
  cbn [mbind option_bind]. rewrite run_app, run_escape.
  reflexivity.
Qed.

Lemma run_quote_value (key : string) (ms : list (string * string)) (s : string) :
  run {| ph := BeforeValue key; members := ms |} (json_quote s)
  = Some {| ph := AfterValue; members := (key, s) :: ms |}.
Proof.
  unfold json_quote. rewrite run_cons. cbn [step ph members].
  change (json_space dquote) with false. cbn [mbind option_bind N.eqb].
  change (N_of_ascii dquote =? 34)%N with true. cbn [mbind option_bind].
  rewrite run_app, run_escape. reflexivity.
Qed.

Lemma run_member (p : phase) (ms : list (string * string)) (kv : string * string) :
  p = AfterOpen ∨ p = BeforeKey →
  run {| ph := p; members := ms |} (dump_member kv)
  = Some {| ph := AfterValue; members := kv :: ms |}.
Proof.
  intros Hp. destruct kv as [k v]. unfold dump_member. cbn [fst snd].
  rewrite run_app, run_quote_key by done. cbn [mbind option_bind].
  rewrite run_app. change (run _ ": ") with (Some {| ph := BeforeValue k; members := ms |}).
  cbn [mbind option_bind]. apply run_quote_value.
Qed.

Lemma run_members (p : phase) (ms : list (string * string)) (l : list (string * string)) :
  p = AfterOpen ∨ p = BeforeKey → l ≠ [] →
  run {| ph := p; members := ms |} (dump_members l)
  = Some {| ph := AfterValue; members := reverse l ++ ms |}.
Proof.
  intros Hp Hl. revert p ms Hp. induction l as [|kv l IH]; intros p ms Hp; [done|].
  destruct l as [|kv' l].
  - cbn [dump_members]. by rewrite run_member.
  - change (dump_members (kv :: kv' :: l))
      with (dump_member kv +:+ ", " +:+ dump_members (kv' :: l)).
    rewrite run_app, run_member by done. cbn [mbind option_bind].
    rewrite run_app.
    change (run _ ", ") with (Some {| ph := BeforeKey; members := kv :: ms |}).
    cbn [mbind option_bind]. rewrite IH by auto.
    by rewrite (reverse_cons (kv' :: l) kv), <-app_assoc.
Qed.

Lemma run_object (l : list (string * string)) :
  run {| ph := BeforeObject; members := [] |} ("{" +:+ dump_members l +:+ "}")
  = Some {| ph := Done; members := reverse l |}.
Proof.
  rewrite append_cons, append_nil_l, run_cons.
  change (step _ "{"%char) with (Some {| ph := AfterOpen; members := [] |}).
  cbn [mbind option_bind]. destruct (decide (l = [])) as [-> | Hl]; [reflexivity|].
  rewrite run_app, run_members by auto. by rewrite app_nil_r.
Qed.

Lemma flat_json_loads_dumps (d : gmap string string) :
  flat_json_loads (flat_json_dumps d) = Some (JObject (JString <$> d)).
Proof.
  unfold flat_json_loads, flat_json_dumps. rewrite run_object.
  cbn [mbind option_bind ph members]. do 3 f_equal.
  symmetry. apply list_to_map_flip. by rewrite reverse_Permutation.
Qed.

(** * Instances of the external interfaces

    The JSON and CBOR interfaces are met by the writer/reader pairs above.
    The two cryptographic interfaces are met by small stand-ins that have the
    right shape (a digest of the requested size, a 32-byte public key); they
    let the definitions run on concrete inputs and carry no cryptographic
    content. *)

Definition flat_json : Json :=
  {| json_dumps := flat_json_dumps;
     json_loads := flat_json_loads;
     json_loads_dumps := flat_json_loads_dumps |}.

Lemma numeric_json_loads_dumps (d : gmap string string) :
  numeric_json_loads (flat_json_dumps d) = Some (JObject (JString <$> d)).
Proof.
  unfold numeric_json_loads. rewrite decide_False; [apply flat_json_loads_dumps|].
  unfold flat_json_dumps, sample_text_numeric_description.
  rewrite !append_cons. discriminate.
Qed.

Definition numeric_json : Json :=
  {| json_dumps := flat_json_dumps;
     json_loads := numeric_json_loads;
     json_loads_dumps := numeric_json_loads_dumps |}.

Definition byte_string_cbor : Cbor :=
  {| cbor_dumps := cbor_encode_bytes;
     cbor_loads := cbor_decode_bytes;
     cbor_loads_dumps := cbor_decode_encode_bytes |}.

Definition padded_prefix (data : bytes) (size : nat) : bytes :=
  take size (data ++ replicate size x00).

Lemma length_padded_prefix (data : bytes) (size : nat) :
  length (padded_prefix data size) = size.
Proof.
  unfold padded_prefix.
  rewrite length_take, length_app, length_replicate. lia.
Qed.

Definition prefix_digest : Blake2b :=
  {| blake2b := padded_prefix;
     blake2b_length := λ data size _, length_padded_prefix data size |}.

Lemma length_reverse_seed (seed : bytes) :
  length seed = 32 → length (reverse seed) = 32.
Proof. by rewrite length_reverse. Qed.

Definition reversed_seed : Ed25519 :=
  {| crypto_sign_seed_keypair := reverse;
     crypto_sign_detached := λ seed data, padded_prefix (seed ++ data) 64;
     crypto_sign_publickey_length := length_reverse_seed |}.

(** * Properties of keys *)

Lemma py_or_None (y : string) : py_or None y = y.
Proof. reflexivity. Qed.

Lemma py_or_empty (y : string) : py_or (Some "") y = y.
Proof. reflexivity. Qed.

Lemma py_or_nonempty (s y : string) : s ≠ "" → py_or (Some s) y = s.
Proof. by destruct s. Qed.

Lemma py_or_self (s : string) : py_or (Some s) s = s.
Proof. by destruct s. Qed.

Lemma py_or_ne_empty (x : option string) (y : string) : y ≠ "" → py_or x y ≠ "".
Proof. by destruct x as [[|c s]|]. Qed.

Lemma KEY_TYPE_concrete (c : KeyClass) : concrete c = true → KEY_TYPE c ≠ "".
Proof. by destruct c. Qed.

Lemma KEY_TYPE_ne_DESCRIPTION (c : KeyClass) :
  concrete c = true → KEY_TYPE c ≠ DESCRIPTION c.
Proof. by destruct c. Qed.

Lemma init_default (c : KeyClass) (b : bytes) :
  __init__ c b None None
  = {| cls := c; _payload := b; _key_type := KEY_TYPE c; _description := KEY_TYPE c |}.
Proof. reflexivity. Qed.

Section codec_properties.
Context `{!Json, !Cbor}.

Lemma from_cbor_to_cbor (c : KeyClass) (k : KeyObject) :
  (N.of_nat (length (payload k)) < cbor_max_length)%N →
  from_cbor c (to_cbor k) = Ok (deserialize c (payload k)).
Proof.
  intros Hlen. unfold from_cbor, to_cbor, serialize.
  rewrite fromhex_hex. cbn [or_raise mbind result_bind].
  by rewrite cbor_loads_dumps.
Qed.

(** [from_json] on a text that parses to an object with three string fields
    whose [cborHex] decodes. *)
Lemma from_json_fields (c : KeyClass) (data : string) (validate_type : bool)
    (m : gmap string json_value) (ty desc cborHex : string) (k : KeyObject) :
  json_loads data = Some (JObject m) →
  m !! "type" = Some (JString ty) →
  m !! "description" = Some (JString desc) →
  m !! "cborHex" = Some (JString cborHex) →
  from_cbor c cborHex = Ok k →
  from_json c data validate_type
  = if validate_type && negb (bool_decide (ty = KEY_TYPE c))
    then Raise InvalidKeyTypeException
    else Ok (__init__ c (payload k) (Some ty) (Some desc)).
Proof.
  intros Hloads Hty Hdesc Hhex Hcbor. unfold from_json, getitem.
  rewrite Hloads. cbn [or_raise mbind result_bind].
  rewrite Hty, Hdesc, Hhex. cbn [or_raise mbind result_bind as_str json_ne_str].
  rewrite Hcbor.
  destruct validate_type; [destruct (bool_decide (ty = KEY_TYPE c))|]; reflexivity.
Qed.

Lemma to_json_dict_lookup (k : KeyObject) :
  to_json_dict k !! "type" = Some (key_type k)
  ∧ to_json_dict k !! "description" = Some (description k)
  ∧ to_json_dict k !! "cborHex" = Some (to_cbor k).
Proof. unfold to_json_dict. by simplify_map_eq. Qed.

Lemma from_json_to_json (c : KeyClass) (k : KeyObject) (validate_type : bool) :
  (N.of_nat (length (payload k)) < cbor_max_length)%N →
  from_json c (to_json k) validate_type
  = if validate_type && negb (bool_decide (key_type k = KEY_TYPE c))
    then Raise InvalidKeyTypeException
    else Ok (__init__ c (payload k) (Some (key_type k)) (Some (description k))).
Proof.
  intros Hlen. destruct (to_json_dict_lookup k) as (Hty & Hdesc & Hhex).
  rewrite (from_json_fields c (to_json k) validate_type
             (JString <$> to_json_dict k) (key_type k) (description k) (to_cbor k)
             (deserialize c (payload k))).
  - done.
  - apply json_loads_dumps.
  - by rewrite lookup_fmap, Hty.
  - by rewrite lookup_fmap, Hdesc.
  - by rewrite lookup_fmap, Hhex.
  - by apply from_cbor_to_cbor.
Qed.

End codec_properties.

(** * The claims *)

Section claims.
Context `{!Json, !Cbor, !Blake2b, !Ed25519}.

(** C1, as the code behaves.  With [key_type] and [description] omitted, a key
    of a concrete class carries the class's KEY_TYPE as its key type, and the
    same KEY_TYPE as its description: [__init__] falls back to [KEY_TYPE] for
    both attributes, so the default description is never the class's
    DESCRIPTION. *)
Theorem init_default_description_is_KEY_TYPE (c : KeyClass) (b : bytes) :
  concrete c = true →
  key_type (__init__ c b None None) = KEY_TYPE c
  ∧ description (__init__ c b None None) = KEY_TYPE c
  ∧ description (__init__ c b None None) ≠ DESCRIPTION c.
Proof.
  intros Hc. rewrite init_default. cbn [key_type description _key_type _description].
  split_and!; [done..|]. by apply KEY_TYPE_ne_DESCRIPTION.
Qed.

(** C2, as the code behaves.  For a concrete class and a payload short enough
    for a CBOR byte string, reading back the JSON text of a freshly built key
    succeeds and restores the payload and the key type, but the description
    that comes back is the class's KEY_TYPE, not its DESCRIPTION. *)
Theorem json_round_trip_description_is_KEY_TYPE
    (c : KeyClass) (b : bytes) (validate_type : bool) :
  concrete c = true →
  (N.of_nat (length b) < cbor_max_length)%N →
  ∃ k, from_json c (to_json (__init__ c b None None)) validate_type = Ok k
       ∧ payload k = b
       ∧ key_type k = KEY_TYPE c
       ∧ description k = KEY_TYPE c
       ∧ description k ≠ DESCRIPTION c.
Proof.
  intros Hc Hlen. rewrite from_json_to_json by done.
  rewrite init_default. cbn [key_type description payload _key_type _description _payload].
  rewrite bool_decide_eq_true_2 by done. rewrite andb_false_r.
  eexists. split; [reflexivity|].
  cbn [__init__ key_type description payload _key_type _description _payload].
  rewrite py_or_self. split_and!; [done..|]. by apply KEY_TYPE_ne_DESCRIPTION.
Qed.

(** C3, as the code behaves.  [serialize] returns the payload unchanged and
    [deserialize] of it restores the payload with the class's KEY_TYPE as key
    type, whatever metadata the original carried; the description of the
    restored key is again the class's KEY_TYPE, not its DESCRIPTION. *)
Theorem deserialize_serialize_description_is_KEY_TYPE
    (c : KeyClass) (b : bytes) (kt d : option string) :
  concrete c = true →
  serialize (__init__ c b kt d) = b
  ∧ payload (deserialize c (serialize (__init__ c b kt d))) = b
  ∧ key_type (deserialize c (serialize (__init__ c b kt d))) = KEY_TYPE c
  ∧ description (deserialize c (serialize (__init__ c b kt d))) = KEY_TYPE c
  ∧ description (deserialize c (serialize (__init__ c b kt d))) ≠ DESCRIPTION c.
Proof.
  intros Hc. split_and!; [done..|]. by apply KEY_TYPE_ne_DESCRIPTION.
Qed.

(** C4.  On a well-formed key text, [from_json] with [validate_type] set fails
    with InvalidKeyTypeException exactly when the text's type field differs
    from the class's KEY_TYPE and returns a key when they are equal; with
    [validate_type] unset it returns the key whatever the type field is. *)
Theorem from_json_validate_type (c : KeyClass) (data ty desc : string) (p : bytes) :
  key_text data ty desc p →
  (from_json c data true = Raise InvalidKeyTypeException ↔ ty ≠ KEY_TYPE c)
  ∧ (ty = KEY_TYPE c →
     from_json c data true = Ok (__init__ c p (Some ty) (Some desc)))
  ∧ from_json c data false = Ok (__init__ c p (Some ty) (Some desc)).
Proof.
  intros (m & cborHex & raw & Hloads & Hty & Hdesc & Hhex & Hraw & Hp).
  assert (from_cbor c cborHex = Ok (deserialize c p)) as Hcbor.
  { unfold from_cbor. rewrite Hraw. cbn [or_raise mbind result_bind]. by rewrite Hp. }
  pose proof (from_json_fields c data true m ty desc cborHex _
                Hloads Hty Hdesc Hhex Hcbor) as Htrue.
  pose proof (from_json_fields c data false m ty desc cborHex _
                Hloads Hty Hdesc Hhex Hcbor) as Hfalse.
  cbn [andb] in Htrue, Hfalse. rewrite Htrue, Hfalse.
  split_and!; [|intros ->; by rewrite bool_decide_eq_true_2|done].
  destruct (bool_decide_reflect (ty = KEY_TYPE c)); cbn [negb]; split; done.
Qed.

(** C5.  Two keys compare equal exactly when their payloads, key types and
    descriptions are equal; keys with the same payload and a different key
    type or description compare unequal. *)
Theorem key_eq_iff (k1 k2 : KeyObject) :
  (__eq__ k1 (PyKey k2) = true
   ↔ payload k1 = payload k2 ∧ key_type k1 = key_type k2
     ∧ description k1 = description k2)
  ∧ (payload k1 = payload k2 →
     key_type k1 ≠ key_type k2 ∨ description k1 ≠ description k2 →
     __eq__ k1 (PyKey k2) = false).
Proof.
  assert (__eq__ k1 (PyKey k2) = true
          ↔ payload k1 = payload k2 ∧ key_type k1 = key_type k2
            ∧ description k1 = description k2) as Hiff.
  { unfold __eq__. rewrite !andb_true_iff, !bool_decide_eq_true. tauto. }
  split; [done|]. intros _ Hne.
  apply not_true_is_false. rewrite Hiff. tauto.
Qed.

(** C6.  The text [to_json] produces is a JSON object with exactly the three
    fields type, description and cborHex; type is the key type, description
    the description, and cborHex the hex form of the CBOR encoding of the
    payload, which is what [serialize] returns. *)
Theorem to_json_three_fields (k : KeyObject) :
  ∃ d : gmap string string,
    to_json k = json_dumps d
    ∧ json_loads (to_json k) = Some (JObject (JString <$> d))
    ∧ dom d = ({[ "type"; "description"; "cborHex" ]} : gset string)
    ∧ d !! "type" = Some (key_type k)
    ∧ d !! "description" = Some (description k)
    ∧ d !! "cborHex" = Some (hex (cbor_dumps (payload k)))
    ∧ serialize k = payload k.
Proof.
  exists (to_json_dict k).
  destruct (to_json_dict_lookup k) as (Hty & Hdesc & Hhex).
  split_and!; [done|apply json_loads_dumps| |done..].
  unfold to_json_dict. rewrite !dom_insert_L, dom_singleton_L. set_solver.
Qed.

(** C7.  For an instance of PaymentVerificationKey or StakeVerificationKey,
    [hash] returns the BLAKE2b digest of the payload, 28 bytes long, and two
    such keys with equal payloads have equal hashes. *)
Theorem hash_is_blake2b_28 (k : KeyObject) :
  cls k = PaymentVerificationKey ∨ cls k = StakeVerificationKey →
  (∃ h, hash k = Ok h
        ∧ hash_payload h = blake2b (payload k) 28
        ∧ length (hash_payload h) = 28)
  ∧ (∀ k', cls k' = PaymentVerificationKey ∨ cls k' = StakeVerificationKey →
           payload k' = payload k → hash k' = hash k).
Proof.
  intros Hk.
  assert (∀ k', cls k' = PaymentVerificationKey ∨ cls k' = StakeVerificationKey →
    hash k' = Ok {| hash_payload := blake2b (payload k') ADDR_KEYHASH_SIZE |}) as Hhash.
  { intros k' [Hc | Hc]; unfold hash; by rewrite Hc. }
  split.
  - eexists. split; [by apply Hhash|]. split; [done|].
    apply blake2b_length. unfold ADDR_KEYHASH_SIZE. lia.
  - intros k' Hk' Hp. rewrite !Hhash by done. by rewrite Hp.
Qed.

(** C8.  For a 32-byte seed, [from_private_key] of either pair class returns
    a pair whose signing key holds the seed and whose verification key holds
    the Ed25519 public key of the seed; the result is a function of the seed
    alone. *)
Theorem from_private_key_derives (seed : bytes) :
  length seed = 32 →
  (∃ kp, PaymentKeyPair.from_private_key seed = Ok kp
         ∧ cls (PaymentKeyPair.signing_key kp) = PaymentSigningKey
         ∧ payload (PaymentKeyPair.signing_key kp) = seed
         ∧ cls (PaymentKeyPair.verification_key kp) = PaymentVerificationKey
         ∧ payload (PaymentKeyPair.verification_key kp) = crypto_sign_seed_keypair seed)
  ∧ (∃ kp, StakeKeyPair.from_private_key seed = Ok kp
           ∧ cls (StakeKeyPair.signing_key kp) = StakeSigningKey
           ∧ payload (StakeKeyPair.signing_key kp) = seed
           ∧ cls (StakeKeyPair.verification_key kp) = StakeVerificationKey
           ∧ payload (StakeKeyPair.verification_key kp) = crypto_sign_seed_keypair seed).
Proof.
  intros Hlen.
  unfold PaymentKeyPair.from_private_key, StakeKeyPair.from_private_key, NACLSigningKey.
  rewrite bool_decide_eq_true_2 by done. cbn [mbind result_bind verify_key].
  split; eexists; (split; [reflexivity|done]).
Qed.

(** C9.  For a concrete class, passing the empty string for [key_type] and
    [description] builds the same key as omitting them, and no choice of the
    two arguments yields a key whose key type or description is empty. *)
Theorem init_ignores_empty_string (c : KeyClass) (b : bytes) :
  concrete c = true →
  __init__ c b (Some "") (Some "") = __init__ c b None None
  ∧ (∀ kt d : option string,
       key_type (__init__ c b kt d) ≠ "" ∧ description (__init__ c b kt d) ≠ "").
Proof.
  intros Hc. split; [reflexivity|]. intros kt d.
  cbn [__init__ key_type description _key_type _description].
  split; by apply py_or_ne_empty, KEY_TYPE_concrete.
Qed.

(** C10.  Equality does not look at the class: two keys of any classes with
    equal payload, key type and description compare equal (a PaymentSigningKey
    and a StakeSigningKey among them), and comparing a key with a value that
    is not a key gives False. *)
Theorem key_eq_ignores_class :
  (∀ k1 k2 : KeyObject,
     payload k1 = payload k2 → key_type k1 = key_type k2 →
     description k1 = description k2 → __eq__ k1 (PyKey k2) = true)
  ∧ (∀ (b : bytes) (kt d : string),
       kt ≠ "" → d ≠ "" →
       __eq__ (__init__ PaymentSigningKey b (Some kt) (Some d))
              (PyKey (__init__ StakeSigningKey b (Some kt) (Some d))) = true)
  ∧ (∀ (k : KeyObject) (o : py_object),
       isinstance_Key o = false → __eq__ k o = false).
Proof.
  assert (∀ k1 k2 : KeyObject,
     payload k1 = payload k2 → key_type k1 = key_type k2 →
     description k1 = description k2 → __eq__ k1 (PyKey k2) = true) as Heq.
  { intros k1 k2 Hp Ht Hd. unfold __eq__.
    by rewrite !bool_decide_eq_true_2. }
  split_and!; [done| |].
  - intros b kt d Hkt Hd. apply Heq; [done|..];
      cbn [__init__ key_type description _key_type _description];
      by rewrite !py_or_nonempty.
  - intros k o Ho. by destruct o.
Qed.

End claims.

(** * The claims on sample inputs *)

Lemma sample_key_text_well_formed :
  @key_text flat_json byte_string_cbor sample_key_text
    "StakeSigningKeyShelley_ed25519" "Stake Signing Key" sample_payload.
Proof.
  exists (JString <$> sample_dict), "43010203", [x43; x01; x02; x03].
  split_and!; [apply flat_json_loads_dumps|by vm_compute..].
Defined.

Lemma init_default_description_is_KEY_TYPE_witness :
  key_type (__init__ PaymentSigningKey sample_payload None None)
    = "PaymentSigningKeyShelley_ed25519"
  ∧ description (__init__ PaymentSigningKey sample_payload None None)
    = "PaymentSigningKeyShelley_ed25519"
  ∧ description (__init__ PaymentSigningKey sample_payload None None)
    ≠ "Payment Verification Key".
Proof.
  apply (init_default_description_is_KEY_TYPE PaymentSigningKey sample_payload).
  reflexivity.
Defined.

Lemma json_round_trip_description_is_KEY_TYPE_witness :
  ∃ k, @from_json flat_json byte_string_cbor PaymentSigningKey
         (@to_json flat_json byte_string_cbor
            (__init__ PaymentSigningKey sample_payload None None)) false = Ok k
       ∧ payload k = sample_payload
       ∧ key_type k = "PaymentSigningKeyShelley_ed25519"
       ∧ description k = "PaymentSigningKeyShelley_ed25519"
       ∧ description k ≠ "Payment Verification Key".
Proof.
  apply (@json_round_trip_description_is_KEY_TYPE flat_json byte_string_cbor
           PaymentSigningKey sample_payload false).
  - reflexivity.
  - vm_compute. reflexivity.
Defined.

Lemma deserialize_serialize_description_is_KEY_TYPE_witness :
  serialize (__init__ StakeVerificationKey sample_payload (Some "custom") (Some "label"))
    = sample_payload
  ∧ payload (deserialize StakeVerificationKey (serialize
      (__init__ StakeVerificationKey sample_payload (Some "custom") (Some "label"))))
    = sample_payload
  ∧ key_type (deserialize StakeVerificationKey (serialize
      (__init__ StakeVerificationKey sample_payload (Some "custom") (Some "label"))))
    = "StakeVerificationKeyShelley_ed25519"
  ∧ description (deserialize StakeVerificationKey (serialize
      (__init__ StakeVerificationKey sample_payload (Some "custom") (Some "label"))))
    = "StakeVerificationKeyShelley_ed25519"
  ∧ description (deserialize StakeVerificationKey (serialize
      (__init__ StakeVerificationKey sample_payload (Some "custom") (Some "label"))))
    ≠ "Stake Verification Key".
Proof.
  apply (deserialize_serialize_description_is_KEY_TYPE StakeVerificationKey
           sample_payload (Some "custom") (Some "label")).
  reflexivity.
Defined.

Lemma from_json_validate_type_witness :
  (@from_json flat_json byte_string_cbor PaymentSigningKey sample_key_text true
     = Raise InvalidKeyTypeException
   ↔ "StakeSigningKeyShelley_ed25519" ≠ KEY_TYPE PaymentSigningKey)
  ∧ ("StakeSigningKeyShelley_ed25519" = KEY_TYPE PaymentSigningKey →
     @from_json flat_json byte_string_cbor PaymentSigningKey sample_key_text true
     = Ok (__init__ PaymentSigningKey sample_payload
             (Some "StakeSigningKeyShelley_ed25519") (Some "Stake Signing Key")))
  ∧ @from_json flat_json byte_string_cbor PaymentSigningKey sample_key_text false
    = Ok (__init__ PaymentSigningKey sample_payload
            (Some "StakeSigningKeyShelley_ed25519") (Some "Stake Signing Key")).
Proof.
  apply (@from_json_validate_type flat_json byte_string_cbor PaymentSigningKey
           sample_key_text "StakeSigningKeyShelley_ed25519" "Stake Signing Key"
           sample_payload).
  exact sample_key_text_well_formed.
Defined.

Lemma key_eq_iff_witness :
  __eq__ (__init__ PaymentSigningKey sample_payload None None)
         (PyKey (__init__ PaymentSigningKey sample_payload None (Some "label")))
  = false.
Proof.
  apply (key_eq_iff (__init__ PaymentSigningKey sample_payload None None)
           (__init__ PaymentSigningKey sample_payload None (Some "label"))).
  - reflexivity.
  - right. vm_compute. discriminate.
Defined.

Lemma hash_is_blake2b_28_witness :
  (∃ h, @hash prefix_digest (__init__ PaymentVerificationKey sample_payload None None) = Ok h
        ∧ hash_payload h = padded_prefix sample_payload 28
        ∧ length (hash_payload h) = 28)
  ∧ (∀ k', cls k' = PaymentVerificationKey ∨ cls k' = StakeVerificationKey →
           payload k' = sample_payload →
           @hash prefix_digest k'
           = @hash prefix_digest (__init__ PaymentVerificationKey sample_payload None None)).
Proof.
  apply (@hash_is_blake2b_28 prefix_digest
           (__init__ PaymentVerificationKey sample_payload None None)).
  left. reflexivity.
Defined.

Lemma from_private_key_derives_witness :
  (∃ kp, @PaymentKeyPair.from_private_key reversed_seed sample_seed = Ok kp
         ∧ cls (PaymentKeyPair.signing_key kp) = PaymentSigningKey
         ∧ payload (PaymentKeyPair.signing_key kp) = sample_seed
         ∧ cls (PaymentKeyPair.verification_key kp) = PaymentVerificationKey
         ∧ payload (PaymentKeyPair.verification_key kp) = reverse sample_seed)
  ∧ (∃ kp, @StakeKeyPair.from_private_key reversed_seed sample_seed = Ok kp
           ∧ cls (StakeKeyPair.signing_key kp) = StakeSigningKey
           ∧ payload (StakeKeyPair.signing_key kp) = sample_seed
           ∧ cls (StakeKeyPair.verification_key kp) = StakeVerificationKey
           ∧ payload (StakeKeyPair.verification_key kp) = reverse sample_seed).
Proof.
  apply (@from_private_key_derives reversed_seed sample_seed).
  reflexivity.
Defined.

Lemma init_ignores_empty_string_witness :
  __init__ StakeSigningKey sample_payload (Some "") (Some "")
  = __init__ StakeSigningKey sample_payload None None
  ∧ (∀ kt d : option string,
       key_type (__init__ StakeSigningKey sample_payload kt d) ≠ ""
       ∧ description (__init__ StakeSigningKey sample_payload kt d) ≠ "").
Proof.
  apply (init_ignores_empty_string StakeSigningKey sample_payload).
  reflexivity.
Defined.

Lemma key_eq_ignores_class_witness :
  __eq__ (__init__ PaymentSigningKey sample_payload (Some "shared") (Some "label"))
         (PyKey (__init__ StakeSigningKey sample_payload (Some "shared") (Some "label")))
  = true
  ∧ __eq__ (__init__ PaymentSigningKey sample_payload None None) (PyBytes sample_payload)
    = false.
Proof.
  destruct key_eq_ignores_class as (_ & Hcross & Hother). split.
  - apply (Hcross sample_payload "shared" "label"); discriminate.
  - apply (Hother _ (PyBytes sample_payload)). reflexivity.
Defined.

(** * Further properties of the code *)

Section further_properties.
Context `{!Json, !Cbor, !Blake2b, !Ed25519}.

(** What [from_json] does on an object that has the three fields and whose
    cborHex decodes. *)
Lemma from_json_returning (c : KeyClass) (data : string) (validate_type : bool)
    (m : gmap string json_value) (tyv dv : json_value) (h : string) (raw p : bytes) :
  json_loads data = Some (JObject m) →
  m !! "type" = Some tyv →
  m !! "description" = Some dv →
  m !! "cborHex" = Some (JString h) →
  fromhex h = Some raw →
  cbor_loads raw = Some p →
  from_json c data validate_type
  = if validate_type && json_ne_str tyv (KEY_TYPE c)
    then Raise InvalidKeyTypeException
    else init_from_json c p tyv dv.
Proof.
  intros Hloads Hty Hdesc Hhex Hraw Hp. unfold from_json, from_cbor, getitem.
  rewrite Hloads. cbn [or_raise mbind result_bind].
  rewrite Hty, Hdesc, Hhex. cbn [or_raise mbind result_bind as_str].
  rewrite Hraw. cbn [or_raise mbind result_bind].
  rewrite Hp. cbn [or_raise mbind result_bind].
  destruct validate_type; [destruct (json_ne_str tyv (KEY_TYPE c))|]; reflexivity.
Qed.

Lemma from_json_object (c : KeyClass) (data : string) (validate_type : bool)
    (m : gmap string json_value) (tyv dv : json_value) (h : string)
    (raw p : bytes) (ty d : option string) :
  json_loads data = Some (JObject m) →
  m !! "type" = Some tyv →
  m !! "description" = Some dv →
  m !! "cborHex" = Some (JString h) →
  fromhex h = Some raw →
  cbor_loads raw = Some p →
  as_optional_str tyv = Some ty →
  as_optional_str dv = Some d →
  from_json c data validate_type
  = if validate_type && json_ne_str tyv (KEY_TYPE c)
    then Raise InvalidKeyTypeException
    else Ok (__init__ c p ty d).
Proof.
  intros Hloads Hty Hdesc Hhex Hraw Hp Hty' Hd'.
  rewrite (from_json_returning c data validate_type m tyv dv h raw p) by done.
  unfold init_from_json. by rewrite Hty', Hd'.
Qed.

Lemma from_cbor_cases (c : KeyClass) (h : string) :
  (∃ k, from_cbor c h = Ok k) ∨ (∃ e, from_cbor c h = Raise e).
Proof.
  unfold from_cbor. destruct (fromhex h) as [raw|]; cbn [or_raise mbind result_bind];
    [destruct (cbor_loads raw); cbn [or_raise mbind result_bind]|]; eauto.
Qed.

Lemma json_ne_str_false (v : json_value) (s : string) :
  json_ne_str v s = false → v = JString s.
Proof.
  destruct v; try done. cbn [json_ne_str].
  case_bool_decide; [by subst|done].
Qed.

(** Every call of [from_json] that does not raise went through all the
    steps: the text is an object with the three fields, its cborHex decodes,
    its type passed the check if there was one, and the outcome is that of the
    constructor call. *)
Lemma from_json_returns_inv (c : KeyClass) (data : string) (validate_type : bool) :
  returns (from_json c data validate_type) = true →
  ∃ (m : gmap string json_value) (tyv dv : json_value) (h : string) (raw p : bytes),
    json_loads data = Some (JObject m)
    ∧ m !! "type" = Some tyv
    ∧ m !! "description" = Some dv
    ∧ m !! "cborHex" = Some (JString h)
    ∧ fromhex h = Some raw
    ∧ cbor_loads raw = Some p
    ∧ (validate_type = true → tyv = JString (KEY_TYPE c))
    ∧ from_json c data validate_type = init_from_json c p tyv dv.
Proof.
  intros Hr.
  destruct (json_loads data) as [obj|] eqn:Hloads;
    [|by unfold from_json in Hr; rewrite Hloads in Hr].
  assert (∃ m, obj = JObject m) as [m ->].
  { destruct obj; eauto; unfold from_json in Hr; rewrite Hloads in Hr;
      by destruct validate_type. }
  destruct (m !! "type") as [tyv|] eqn:Hty; last first.
  { unfold from_json, getitem in Hr. rewrite Hloads in Hr.
    cbn [or_raise mbind result_bind] in Hr. rewrite Hty in Hr.
    destruct validate_type; [done|]. cbn [or_raise mbind result_bind] in Hr.
    destruct (m !! "cborHex") as [[]|]; try done. cbn [or_raise mbind result_bind as_str] in Hr.
    by destruct (from_cbor_cases c s) as [[k Hk] | [e Hk]]; rewrite Hk in Hr. }
  destruct (m !! "cborHex") as [hv|] eqn:Hhex; last first.
  { unfold from_json, getitem in Hr. rewrite Hloads in Hr.
    cbn [or_raise mbind result_bind] in Hr. rewrite Hty, Hhex in Hr.
    destruct validate_type; [|done]. cbn [or_raise mbind result_bind] in Hr.
    by destruct (json_ne_str tyv (KEY_TYPE c)). }
  assert (∃ h, hv = JString h) as [h ->].
  { destruct hv; eauto; unfold from_json, getitem in Hr; rewrite Hloads in Hr;
      cbn [or_raise mbind result_bind] in Hr; rewrite Hty, Hhex in Hr;
      (destruct validate_type; [|done]); cbn [or_raise mbind result_bind] in Hr;
      by destruct (json_ne_str tyv (KEY_TYPE c)). }
  destruct (fromhex h) as [raw|] eqn:Hraw; last first.
  { unfold from_json, getitem, from_cbor in Hr. rewrite Hloads in Hr.
    cbn [or_raise mbind result_bind] in Hr. rewrite Hty, Hhex in Hr.
    cbn [or_raise mbind result_bind as_str] in Hr. rewrite Hraw in Hr.
    destruct validate_type; [|done]. cbn [or_raise mbind result_bind] in Hr.
    by destruct (json_ne_str tyv (KEY_TYPE c)). }
  destruct (cbor_loads raw) as [p|] eqn:Hp; last first.
  { unfold from_json, getitem, from_cbor in Hr. rewrite Hloads in Hr.
    cbn [or_raise mbind result_bind] in Hr. rewrite Hty, Hhex in Hr.
    cbn [or_raise mbind result_bind as_str] in Hr. rewrite Hraw in Hr.
    cbn [or_raise mbind result_bind] in Hr. rewrite Hp in Hr.
    destruct validate_type; [|done]. cbn [or_raise mbind result_bind] in Hr.
    by destruct (json_ne_str tyv (KEY_TYPE c)). }
  destruct (m !! "description") as [dv|] eqn:Hdesc; last first.
  { unfold from_json, getitem, from_cbor in Hr. rewrite Hloads in Hr.
    cbn [or_raise mbind result_bind] in Hr. rewrite Hty, Hhex, Hdesc in Hr.
    cbn [or_raise mbind result_bind as_str] in Hr. rewrite Hraw in Hr.
    cbn [or_raise mbind result_bind] in Hr. rewrite Hp in Hr.
    destruct validate_type; [|done]. cbn [or_raise mbind result_bind] in Hr.
    by destruct (json_ne_str tyv (KEY_TYPE c)). }
  pose proof (from_json_returning c data validate_type m tyv dv h raw p
                Hloads Hty Hdesc Hhex Hraw Hp) as Heq.
  exists m, tyv, dv, h, raw, p. split_and!; try done.
  - intros ->. rewrite Heq in Hr. cbn [andb] in Hr.
    destruct (json_ne_str tyv (KEY_TYPE c)) eqn:Hne; [done|].
    by apply json_ne_str_false.
  - rewrite Heq in Hr |- *.
    by destruct (validate_type && json_ne_str tyv (KEY_TYPE c)).
Qed.

Lemma or_attribute_ne_empty (v : json_value) (y : string) :
  y ≠ "" → or_attribute v y ≠ AStr "".
Proof.
  intros Hy. destruct v; cbn [or_attribute]; try (case_match; congruence).
  intros [= Hs]. by apply (py_or_ne_empty (Some s) y).
Qed.

(** X1.  A key returned by [from_json] is an instance of the class it was
    called on; when [validate_type] is set its key type is the class's
    KEY_TYPE; and for a concrete class neither its key type nor its
    description is the empty string.  This holds of every key the call
    returns, whether its metadata is str or not. *)
Theorem from_json_postcondition (c : KeyClass) (data : string) (validate_type : bool) :
  (∀ k : KeyObject,
     from_json c data validate_type = Ok k →
     cls k = c
     ∧ (validate_type = true → key_type k = KEY_TYPE c)
     ∧ (concrete c = true → key_type k ≠ "" ∧ description k ≠ ""))
  ∧ (∀ u : RawKey,
       from_json c data validate_type = OkRaw u →
       raw_cls u = c
       ∧ (validate_type = true → raw_key_type u = AStr (KEY_TYPE c))
       ∧ (concrete c = true →
          raw_key_type u ≠ AStr "" ∧ raw_description u ≠ AStr "")).
Proof.
  split.
  - intros k Hk.
    destruct (from_json_returns_inv c data validate_type)
      as (m & tyv & dv & h & raw & p & _ & _ & _ & _ & _ & _ & Hv & Heq);
      [by rewrite Hk|].
    rewrite Hk in Heq. unfold init_from_json in Heq.
    destruct (as_optional_str tyv) as [ty|] eqn:Hty; [|done].
    destruct (as_optional_str dv) as [d|]; [|done].
    injection Heq as ->. split_and!; [done| |].
    + intros ->%Hv. injection Hty as <-.
      cbn [__init__ key_type _key_type]. apply py_or_self.
    + intros Hc. cbn [__init__ key_type description _key_type _description].
      split; by apply py_or_ne_empty, KEY_TYPE_concrete.
  - intros u Hu.
    destruct (from_json_returns_inv c data validate_type)
      as (m & tyv & dv & h & raw & p & _ & _ & _ & _ & _ & _ & Hv & Heq);
      [by rewrite Hu|].
    rewrite Hu in Heq. unfold init_from_json in Heq.
    assert (u = {| raw_cls := c; raw_payload := p;
                   raw_key_type := or_attribute tyv (KEY_TYPE c);
                   raw_description := or_attribute dv (KEY_TYPE c) |}) as ->
      by (destruct (as_optional_str tyv), (as_optional_str dv); congruence).
    cbn [raw_cls raw_key_type raw_description]. split_and!; [done| |].
    + intros ->%Hv. cbn [or_attribute]. by rewrite py_or_self.
    + intros Hc. split; by apply or_attribute_ne_empty, KEY_TYPE_concrete.
Qed.

(** X2.  Validation only ever rejects: with [validate_type] set, [from_json]
    has the outcome it has with [validate_type] unset, or raises
    InvalidKeyTypeException, or raises KeyError on type.  So a key returned
    with validation is returned without it too. *)
Theorem from_json_validation_only_rejects (c : KeyClass) (data : string) :
  (from_json c data true = from_json c data false
   ∨ from_json c data true = Raise InvalidKeyTypeException
   ∨ from_json c data true = Raise (KeyError "type"))
  ∧ (∀ k : KeyObject,
       from_json c data true = Ok k → from_json c data false = Ok k)
  ∧ (∀ u : RawKey,
       from_json c data true = OkRaw u → from_json c data false = OkRaw u).
Proof.
  assert (from_json c data true = from_json c data false
          ∨ from_json c data true = Raise InvalidKeyTypeException
          ∨ from_json c data true = Raise (KeyError "type")) as Hcases.
  { unfold from_json.
    destruct (json_loads data) as [obj|]; [|by left].
    cbn [or_raise mbind result_bind].
    destruct obj; try by left.
    cbn [getitem]. destruct (m !! "type") as [tyv|]; [|by right; right].
    cbn [or_raise mbind result_bind].
    destruct (json_ne_str tyv (KEY_TYPE c)); [by right; left|by left]. }
  split_and!; [done|..].
  - intros k Hk. destruct Hcases as [<- | [Heq | Heq]]; [done|congruence..].
  - intros u Hu. destruct Hcases as [<- | [Heq | Heq]]; [done|congruence..].
Qed.

(** X3.  A JSON object that lacks one of the fields type, description and
    cborHex never yields a key.  Without validation a missing cborHex is
    reported as KeyError on cborHex; with validation a missing type is reported
    as KeyError on type. *)
Theorem from_json_missing_field (c : KeyClass) (data : string)
    (validate_type : bool) (m : gmap string json_value) (f : string) :
  json_loads data = Some (JObject m) →
  f ∈ ["type"; "description"; "cborHex"] →
  m !! f = None →
  (∀ k, from_json c data validate_type ≠ Ok k)
  ∧ (∀ u, from_json c data validate_type ≠ OkRaw u)
  ∧ (f = "cborHex" → from_json c data false = Raise (KeyError "cborHex"))
  ∧ (f = "type" → from_json c data true = Raise (KeyError "type")).
Proof.
  intros Hloads Hf Hnone.
  assert (returns (from_json c data validate_type) = false) as Hraises.
  { apply not_true_is_false.
    intros (m' & tyv & dv & h & raw & p & Hloads' & Hty & Hdesc & Hhex & _)
      %from_json_returns_inv.
    rewrite Hloads in Hloads'. injection Hloads' as <-.
    set_unfold in Hf. destruct Hf as [-> | [-> | [-> | []]]]; congruence. }
  split_and!.
  - intros k Hk. by rewrite Hk in Hraises.
  - intros u Hu. by rewrite Hu in Hraises.
  - intros ->. unfold from_json, getitem.
    rewrite Hloads. cbn [or_raise mbind result_bind]. by rewrite Hnone.
  - intros ->. unfold from_json, getitem.
    rewrite Hloads. cbn [or_raise mbind result_bind]. by rewrite Hnone.
Qed.

(** X4.  Text that is not JSON raises JSONDecodeError, and JSON that is not
    an object raises TypeError, whether or not the type is validated. *)
Theorem from_json_not_an_object (c : KeyClass) (data : string) (validate_type : bool) :
  (json_loads data = None → from_json c data validate_type = Raise JSONDecodeError)
  ∧ (∀ obj, json_loads data = Some obj → (∀ m, obj ≠ JObject m) →
            from_json c data validate_type = Raise TypeError).
Proof.
  split.
  - intros Hloads. unfold from_json. by rewrite Hloads.
  - intros obj Hloads Hobj. unfold from_json. rewrite Hloads.
    cbn [or_raise mbind result_bind].
    destruct obj; try (by destruct validate_type). by destruct (Hobj m).
Qed.

Lemma from_json_type_mismatch (c : KeyClass) (data : string)
    (m : gmap string json_value) (tyv : json_value) :
  json_loads data = Some (JObject m) →
  m !! "type" = Some tyv →
  tyv ≠ JString (KEY_TYPE c) →
  from_json c data true = Raise InvalidKeyTypeException.
Proof.
  intros Hloads Hty Hne. unfold from_json, getitem.
  rewrite Hloads. cbn [or_raise mbind result_bind].
  rewrite Hty. cbn [or_raise mbind result_bind].
  assert (json_ne_str tyv (KEY_TYPE c) = true) as ->; [|done].
  destruct tyv; try done. cbn [json_ne_str].
  rewrite bool_decide_eq_false_2; [done|congruence].
Qed.

(** X5.  With [validate_type] set, a type field that is not the class's
    KEY_TYPE raises InvalidKeyTypeException before any other field is read:
    the other fields may be missing or undecodable. *)
Theorem from_json_type_checked_first (c : KeyClass) (data : string)
    (m : gmap string json_value) (tyv : json_value) :
  json_loads data = Some (JObject m) →
  m !! "type" = Some tyv →
  tyv ≠ JString (KEY_TYPE c) →
  from_json c data true = Raise InvalidKeyTypeException.
Proof. apply from_json_type_mismatch. Qed.

Lemma KEY_TYPE_inj (c1 c2 : KeyClass) :
  concrete c1 = true → concrete c2 = true → KEY_TYPE c1 = KEY_TYPE c2 → c1 = c2.
Proof. by destruct c1, c2. Qed.

(** X6.  The text of a default key of one concrete class, read by another
    concrete class, raises InvalidKeyTypeException with [validate_type] set;
    with it unset the text loads as a key of the reading class that keeps the
    writer's key type. *)
Theorem from_json_other_class (c1 c2 : KeyClass) (b : bytes) :
  concrete c1 = true → concrete c2 = true → c1 ≠ c2 →
  (N.of_nat (length b) < cbor_max_length)%N →
  from_json c2 (to_json (__init__ c1 b None None)) true = Raise InvalidKeyTypeException
  ∧ ∃ k, from_json c2 (to_json (__init__ c1 b None None)) false = Ok k
         ∧ cls k = c2 ∧ payload k = b ∧ key_type k = KEY_TYPE c1.
Proof.
  intros Hc1 Hc2 Hne Hlen. rewrite !from_json_to_json by done.
  rewrite init_default. cbn [payload key_type description _payload _key_type _description].
  rewrite bool_decide_eq_false_2 by (intros ?%KEY_TYPE_inj; done).
  split; [done|]. cbn [andb]. eexists. split; [reflexivity|].
  cbn [__init__ cls payload key_type _payload _key_type].
  split_and!; [done..|]. by apply py_or_nonempty, KEY_TYPE_concrete.
Qed.








(** X10.  [hash] exists on AddressKey and its two subclasses, where it
    returns 28 bytes; on Key and on the signing classes the call raises
    AttributeError. *)
Theorem hash_only_on_address_keys (k : KeyObject) :
  (cls k ∈ [AddressKey; PaymentVerificationKey; StakeVerificationKey] →
   ∃ h, hash k = Ok h ∧ length (hash_payload h) = 28)
  ∧ (cls k ∈ [Key; SigningKey; PaymentSigningKey; StakeSigningKey] →
     hash k = Raise AttributeError).
Proof.
  unfold hash. split; intros Hc; set_unfold in Hc.
  - assert (issubclass (cls k) AddressKey = true) as ->
      by (destruct Hc as [-> | [-> | [-> | []]]]; reflexivity).
    eexists. split; [reflexivity|]. cbn [hash_payload].
    apply blake2b_length. unfold ADDR_KEYHASH_SIZE. lia.
  - assert (issubclass (cls k) AddressKey = false) as ->
      by (destruct Hc as [-> | [-> | [-> | [-> | []]]]]; reflexivity).
    done.
Qed.

(** X11.  On an instance of a signing class, [sign] returns the Ed25519
    signature of the data under the payload when the payload is 32 bytes long
    and raises ValueError otherwise. *)
Theorem sign_behaviour (k : KeyObject) (data : bytes) :
  cls k ∈ [SigningKey; PaymentSigningKey; StakeSigningKey] →
  (length (payload k) = 32 → sign k data = Ok (crypto_sign_detached (payload k) data))
  ∧ (length (payload k) ≠ 32 → sign k data = Raise ValueError).
Proof.
  intros Hc. set_unfold in Hc. unfold sign, NACLSigningKey, crypto_sign_SEEDBYTES.
  assert (issubclass (cls k) SigningKey = true) as ->
    by (destruct Hc as [-> | [-> | [-> | []]]]; reflexivity).
  split; intros Hlen.
  - by rewrite bool_decide_eq_true_2.
  - by rewrite bool_decide_eq_false_2.
Qed.

(** X12.  On Key, AddressKey and the two verification classes the call of
    [sign] raises AttributeError. *)
Theorem sign_not_on_verification_keys (k : KeyObject) (data : bytes) :
  cls k ∈ [Key; AddressKey; PaymentVerificationKey; StakeVerificationKey] →
  sign k data = Raise AttributeError.
Proof.
  intros Hc. set_unfold in Hc. unfold sign.
  assert (issubclass (cls k) SigningKey = false) as ->
    by (destruct Hc as [-> | [-> | [-> | [-> | []]]]]; reflexivity).
  done.
Qed.

(** X13.  A seed that is not 32 bytes long makes both [from_private_key]
    functions raise ValueError. *)
Theorem from_private_key_bad_seed (seed : bytes) :
  length seed ≠ 32 →
  PaymentKeyPair.from_private_key seed = Raise ValueError
  ∧ StakeKeyPair.from_private_key seed = Raise ValueError.
Proof.
  intros Hlen.
  unfold PaymentKeyPair.from_private_key, StakeKeyPair.from_private_key,
    NACLSigningKey, crypto_sign_SEEDBYTES.
  by rewrite bool_decide_eq_false_2.
Qed.

Lemma payment_from_private_key_Ok_inv (seed : bytes) (kp : PaymentKeyPair.t) :
  PaymentKeyPair.from_private_key seed = Ok kp →
  length seed = 32
  ∧ kp = PaymentKeyPair.__init__ seed (crypto_sign_seed_keypair seed).
Proof.
  unfold PaymentKeyPair.from_private_key, NACLSigningKey, crypto_sign_SEEDBYTES.
  case_bool_decide; [|done]. cbn [mbind result_bind verify_key]. naive_solver.
Qed.

Lemma stake_from_private_key_Ok_inv (seed : bytes) (kp : StakeKeyPair.t) :
  StakeKeyPair.from_private_key seed = Ok kp →
  length seed = 32
  ∧ kp = StakeKeyPair.__init__ seed (crypto_sign_seed_keypair seed).
Proof.
  unfold StakeKeyPair.from_private_key, NACLSigningKey, crypto_sign_SEEDBYTES.
  case_bool_decide; [|done]. cbn [mbind result_bind verify_key]. naive_solver.
Qed.

(** X14.  In a pair built by [PaymentKeyPair.from_private_key] the signing
    key signs under the seed and the verification key hashes to the 28-byte
    digest of the derived public key; the signing key cannot be hashed and the
    verification key cannot sign. *)
Theorem payment_key_pair_usable (seed data : bytes) (kp : PaymentKeyPair.t) :
  PaymentKeyPair.from_private_key seed = Ok kp →
  sign (PaymentKeyPair.signing_key kp) data = Ok (crypto_sign_detached seed data)
  ∧ (∃ h, hash (PaymentKeyPair.verification_key kp) = Ok h
          ∧ hash_payload h = blake2b (crypto_sign_seed_keypair seed) 28
          ∧ length (hash_payload h) = 28)
  ∧ hash (PaymentKeyPair.signing_key kp) = Raise AttributeError
  ∧ sign (PaymentKeyPair.verification_key kp) data = Raise AttributeError.
Proof.
  intros [Hlen ->]%payment_from_private_key_Ok_inv.
  split_and!; [|eexists; split_and!; [reflexivity..|]|reflexivity..].
  - unfold sign, NACLSigningKey, crypto_sign_SEEDBYTES.
    cbn [PaymentKeyPair.__init__ PaymentKeyPair.signing_key __init__ cls payload _payload].
    change (issubclass PaymentSigningKey SigningKey) with true. cbn match.
    by rewrite bool_decide_eq_true_2.
  - apply blake2b_length. unfold ADDR_KEYHASH_SIZE. lia.
Qed.

(** X15.  In a pair built by [StakeKeyPair.from_private_key] the signing key
    signs under the seed and the verification key hashes to the 28-byte digest
    of the derived public key; the signing key cannot be hashed and the
    verification key cannot sign. *)
Theorem stake_key_pair_usable (seed data : bytes) (kp : StakeKeyPair.t) :
  StakeKeyPair.from_private_key seed = Ok kp →
  sign (StakeKeyPair.signing_key kp) data = Ok (crypto_sign_detached seed data)
  ∧ (∃ h, hash (StakeKeyPair.verification_key kp) = Ok h
          ∧ hash_payload h = blake2b (crypto_sign_seed_keypair seed) 28
          ∧ length (hash_payload h) = 28)
  ∧ hash (StakeKeyPair.signing_key kp) = Raise AttributeError
  ∧ sign (StakeKeyPair.verification_key kp) data = Raise AttributeError.
Proof.
  intros [Hlen ->]%stake_from_private_key_Ok_inv.
  split_and!; [|eexists; split_and!; [reflexivity..|]|reflexivity..].
  - unfold sign, NACLSigningKey, crypto_sign_SEEDBYTES.
    cbn [StakeKeyPair.__init__ StakeKeyPair.signing_key __init__ cls payload _payload].
    change (issubclass StakeSigningKey SigningKey) with true. cbn match.
    by rewrite bool_decide_eq_true_2.
  - apply blake2b_length. unfold ADDR_KEYHASH_SIZE. lia.
Qed.

(** X16.  A payment pair and a stake pair built from one seed hold the same
    payloads, yet their signing keys compare unequal and so do their
    verification keys; the two verification keys have the same hash. *)
Theorem payment_and_stake_pair_of_one_seed
    (seed : bytes) (kp : PaymentKeyPair.t) (ks : StakeKeyPair.t) :
  PaymentKeyPair.from_private_key seed = Ok kp →
  StakeKeyPair.from_private_key seed = Ok ks →
  payload (PaymentKeyPair.signing_key kp) = payload (StakeKeyPair.signing_key ks)
  ∧ payload (PaymentKeyPair.verification_key kp)
    = payload (StakeKeyPair.verification_key ks)
  ∧ __eq__ (PaymentKeyPair.signing_key kp) (PyKey (StakeKeyPair.signing_key ks)) = false
  ∧ __eq__ (PaymentKeyPair.verification_key kp)
           (PyKey (StakeKeyPair.verification_key ks)) = false
  ∧ hash (PaymentKeyPair.verification_key kp) = hash (StakeKeyPair.verification_key ks).
Proof.
  intros [_ ->]%payment_from_private_key_Ok_inv [_ ->]%stake_from_private_key_Ok_inv.
  split_and!; try reflexivity.
  - unfold __eq__. rewrite andb_false_iff. right. by apply bool_decide_eq_false_2.
  - unfold __eq__. rewrite andb_false_iff. right. by apply bool_decide_eq_false_2.
Qed.

(** X17.  The binary round trip drops an explicit key type: for a key built
    with a non-empty key type other than the class's KEY_TYPE,
    [deserialize] of [serialize] has the class's KEY_TYPE and compares unequal
    to the original. *)
Theorem deserialize_drops_custom_key_type
    (c : KeyClass) (b : bytes) (kt : string) (d : option string) :
  kt ≠ "" → kt ≠ KEY_TYPE c →
  key_type (__init__ c b (Some kt) d) = kt
  ∧ key_type (deserialize c (serialize (__init__ c b (Some kt) d))) = KEY_TYPE c
  ∧ __eq__ (deserialize c (serialize (__init__ c b (Some kt) d)))
           (PyKey (__init__ c b (Some kt) d)) = false.
Proof.
  intros Hkt Hne.
  assert (key_type (__init__ c b (Some kt) d) = kt) as Hk
    by (cbn [__init__ key_type _key_type]; by apply py_or_nonempty).
  split_and!; [done..|].
  unfold __eq__. rewrite Hk. rewrite andb_false_iff. right.
  apply bool_decide_eq_false_2. cbn [deserialize __init__ key_type _key_type py_or].
  congruence.
Qed.

(** X18.  [from_json] reads only the fields type, description and cborHex:
    two objects that agree on these three give the same result. *)
Theorem from_json_reads_three_fields (c : KeyClass) (data1 data2 : string)
    (validate_type : bool) (m1 m2 : gmap string json_value) :
  json_loads data1 = Some (JObject m1) →
  json_loads data2 = Some (JObject m2) →
  (∀ f, f ∈ ["type"; "description"; "cborHex"] → m1 !! f = m2 !! f) →
  from_json c data1 validate_type = from_json c data2 validate_type.
Proof.
  intros Hl1 Hl2 Hf. unfold from_json, getitem. rewrite Hl1, Hl2.
  cbn [or_raise mbind result_bind].
  rewrite !(Hf "type"), !(Hf "description"), !(Hf "cborHex") by set_solver.
  done.
Qed.

(** X19.  A type field that is null or the empty string loads, without
    validation, as a key with the class's KEY_TYPE; with validation a concrete
    class rejects it with InvalidKeyTypeException. *)
Theorem from_json_empty_type (c : KeyClass) (data : string)
    (m : gmap string json_value) (tyv : json_value) (desc cborHex : string)
    (raw p : bytes) :
  json_loads data = Some (JObject m) →
  m !! "type" = Some tyv →
  tyv = JNull ∨ tyv = JString "" →
  m !! "description" = Some (JString desc) →
  m !! "cborHex" = Some (JString cborHex) →
  fromhex cborHex = Some raw →
  cbor_loads raw = Some p →
  (∃ k, from_json c data false = Ok k ∧ key_type k = KEY_TYPE c ∧ payload k = p)
  ∧ (concrete c = true → from_json c data true = Raise InvalidKeyTypeException).
Proof.
  intros Hloads Hty Htyv Hdesc Hhex Hraw Hp. split.
  - destruct Htyv as [-> | ->].
    + rewrite (from_json_object c data false m JNull (JString desc) cborHex raw p
                 None (Some desc)) by done.
      eexists. split; [reflexivity|]. done.
    + rewrite (from_json_object c data false m (JString "") (JString desc) cborHex raw p
                 (Some "") (Some desc)) by done.
      eexists. split; [reflexivity|]. done.
  - intros Hc. apply (from_json_type_mismatch c data m tyv); [done..|].
    pose proof (KEY_TYPE_concrete c Hc).
    destruct Htyv as [-> | ->]; congruence.
Qed.
End further_properties.

(** * The further properties on sample inputs *)

Lemma from_json_postcondition_witness :
  (cls sample_key = StakeSigningKey
   ∧ (true = true → key_type sample_key = KEY_TYPE StakeSigningKey)
   ∧ (concrete StakeSigningKey = true →
      key_type sample_key ≠ "" ∧ description sample_key ≠ ""))
  ∧ (raw_cls sample_raw_key = StakeSigningKey
     ∧ (true = true → raw_key_type sample_raw_key = AStr (KEY_TYPE StakeSigningKey))
     ∧ (concrete StakeSigningKey = true →
        raw_key_type sample_raw_key ≠ AStr ""
        ∧ raw_description sample_raw_key ≠ AStr "")).
Proof.
  split.
  - apply (proj1 (@from_json_postcondition flat_json byte_string_cbor
                    StakeSigningKey sample_key_text true) sample_key).
    vm_compute. reflexivity.
  - apply (proj2 (@from_json_postcondition numeric_json byte_string_cbor
                    StakeSigningKey sample_text_numeric_description true)
             sample_raw_key).
    vm_compute. reflexivity.
Defined.

Lemma from_json_validation_only_rejects_witness :
  @from_json flat_json byte_string_cbor StakeSigningKey sample_key_text false
  = Ok sample_key
  ∧ @from_json numeric_json byte_string_cbor StakeSigningKey
      sample_text_numeric_description false
    = OkRaw sample_raw_key.
Proof.
  split.
  - apply (proj1 (proj2 (@from_json_validation_only_rejects flat_json byte_string_cbor
                           StakeSigningKey sample_key_text)) sample_key).
    vm_compute. reflexivity.
  - apply (proj2 (proj2 (@from_json_validation_only_rejects numeric_json byte_string_cbor
                           StakeSigningKey sample_text_numeric_description))
             sample_raw_key).
    vm_compute. reflexivity.
Defined.

Lemma from_json_missing_field_witness :
  (∀ k, @from_json flat_json byte_string_cbor PaymentSigningKey
          sample_text_no_cborHex false ≠ Ok k)
  ∧ (∀ u, @from_json flat_json byte_string_cbor PaymentSigningKey
            sample_text_no_cborHex false ≠ OkRaw u)
  ∧ ("cborHex" = "cborHex" →
     @from_json flat_json byte_string_cbor PaymentSigningKey
       sample_text_no_cborHex false = Raise (KeyError "cborHex"))
  ∧ ("cborHex" = "type" →
     @from_json flat_json byte_string_cbor PaymentSigningKey
       sample_text_no_cborHex true = Raise (KeyError "type")).
Proof.
  apply (@from_json_missing_field flat_json byte_string_cbor PaymentSigningKey
           sample_text_no_cborHex false (JString <$> sample_dict_no_cborHex) "cborHex").
  - apply flat_json_loads_dumps.
  - set_solver.
  - vm_compute. reflexivity.
Defined.

Lemma from_json_not_an_object_witness :
  @from_json flat_json byte_string_cbor PaymentSigningKey "not json" true
  = Raise JSONDecodeError.
Proof.
  apply (@from_json_not_an_object flat_json byte_string_cbor
           PaymentSigningKey "not json" true).
  vm_compute. reflexivity.
Defined.

Lemma from_json_type_checked_first_witness :
  @from_json flat_json byte_string_cbor PaymentSigningKey sample_text_no_cborHex true
  = Raise InvalidKeyTypeException.
Proof.
  apply (@from_json_type_checked_first flat_json byte_string_cbor PaymentSigningKey
           sample_text_no_cborHex (JString <$> sample_dict_no_cborHex)
           (JString "StakeSigningKeyShelley_ed25519")).
  - apply flat_json_loads_dumps.
  - vm_compute. reflexivity.
  - discriminate.
Defined.

Lemma from_json_other_class_witness :
  @from_json flat_json byte_string_cbor StakeSigningKey
    (@to_json flat_json byte_string_cbor
       (__init__ PaymentSigningKey sample_payload None None)) true
  = Raise InvalidKeyTypeException
  ∧ ∃ k, @from_json flat_json byte_string_cbor StakeSigningKey
           (@to_json flat_json byte_string_cbor
              (__init__ PaymentSigningKey sample_payload None None)) false = Ok k
         ∧ cls k = StakeSigningKey ∧ payload k = sample_payload
         ∧ key_type k = KEY_TYPE PaymentSigningKey.
Proof.
  apply (@from_json_other_class flat_json byte_string_cbor
           PaymentSigningKey StakeSigningKey sample_payload).
  - reflexivity.
  - reflexivity.
  - discriminate.
  - vm_compute. reflexivity.
Defined.




Lemma hash_only_on_address_keys_witness :
  @hash prefix_digest sample_key = Raise AttributeError.
Proof.
  apply (@hash_only_on_address_keys prefix_digest sample_key).
  vm_compute. set_solver.
Defined.

Lemma sign_behaviour_witness :
  (length (payload sample_key) = 32 →
   @sign reversed_seed sample_key [x00]
   = Ok (padded_prefix (payload sample_key ++ [x00]) 64))
  ∧ (length (payload sample_key) ≠ 32 →
     @sign reversed_seed sample_key [x00] = Raise ValueError).
Proof.
  apply (@sign_behaviour reversed_seed sample_key [x00]).
  vm_compute. set_solver.
Defined.

Lemma sign_not_on_verification_keys_witness :
  @sign reversed_seed (__init__ StakeVerificationKey sample_payload None None) [x00]
  = Raise AttributeError.
Proof.
  apply (@sign_not_on_verification_keys reversed_seed).
  vm_compute. set_solver.
Defined.

Lemma from_private_key_bad_seed_witness :
  @PaymentKeyPair.from_private_key reversed_seed sample_payload = Raise ValueError
  ∧ @StakeKeyPair.from_private_key reversed_seed sample_payload = Raise ValueError.
Proof.
  apply (@from_private_key_bad_seed reversed_seed sample_payload).
  vm_compute. discriminate.
Defined.

Lemma payment_key_pair_usable_witness :
  @sign reversed_seed
    (PaymentKeyPair.signing_key (PaymentKeyPair.__init__ sample_seed (reverse sample_seed)))
    [x00]
  = Ok (padded_prefix (sample_seed ++ [x00]) 64)
  ∧ (∃ h, @hash prefix_digest
            (PaymentKeyPair.verification_key
               (PaymentKeyPair.__init__ sample_seed (reverse sample_seed))) = Ok h
          ∧ hash_payload h = padded_prefix (reverse sample_seed) 28
          ∧ length (hash_payload h) = 28)
  ∧ @hash prefix_digest
      (PaymentKeyPair.signing_key (PaymentKeyPair.__init__ sample_seed (reverse sample_seed)))
    = Raise AttributeError
  ∧ @sign reversed_seed
      (PaymentKeyPair.verification_key
         (PaymentKeyPair.__init__ sample_seed (reverse sample_seed))) [x00]
    = Raise AttributeError.
Proof.
  apply (@payment_key_pair_usable prefix_digest reversed_seed sample_seed [x00]).
  vm_compute. reflexivity.
Defined.

Lemma stake_key_pair_usable_witness :
  @sign reversed_seed
    (StakeKeyPair.signing_key (StakeKeyPair.__init__ sample_seed (reverse sample_seed)))
    [x00]
  = Ok (padded_prefix (sample_seed ++ [x00]) 64)
  ∧ (∃ h, @hash prefix_digest
            (StakeKeyPair.verification_key
               (StakeKeyPair.__init__ sample_seed (reverse sample_seed))) = Ok h
          ∧ hash_payload h = padded_prefix (reverse sample_seed) 28
          ∧ length (hash_payload h) = 28)
  ∧ @hash prefix_digest
      (StakeKeyPair.signing_key (StakeKeyPair.__init__ sample_seed (reverse sample_seed)))
    = Raise AttributeError
  ∧ @sign reversed_seed
      (StakeKeyPair.verification_key
         (StakeKeyPair.__init__ sample_seed (reverse sample_seed))) [x00]
    = Raise AttributeError.
Proof.
  apply (@stake_key_pair_usable prefix_digest reversed_seed sample_seed [x00]).
  vm_compute. reflexivity.
Defined.

Lemma payment_and_stake_pair_of_one_seed_witness :
  __eq__
    (PaymentKeyPair.signing_key (PaymentKeyPair.__init__ sample_seed (reverse sample_seed)))
    (PyKey (StakeKeyPair.signing_key
              (StakeKeyPair.__init__ sample_seed (reverse sample_seed))))
  = false.
Proof.
  apply (@payment_and_stake_pair_of_one_seed prefix_digest reversed_seed sample_seed
           (PaymentKeyPair.__init__ sample_seed (reverse sample_seed))
           (StakeKeyPair.__init__ sample_seed (reverse sample_seed))).
  - vm_compute. reflexivity.
  - vm_compute. reflexivity.
Defined.

Lemma deserialize_drops_custom_key_type_witness :
  key_type (__init__ PaymentSigningKey sample_payload (Some "custom") None) = "custom"
  ∧ key_type (deserialize PaymentSigningKey
                (serialize (__init__ PaymentSigningKey sample_payload (Some "custom") None)))
    = KEY_TYPE PaymentSigningKey
  ∧ __eq__ (deserialize PaymentSigningKey
              (serialize (__init__ PaymentSigningKey sample_payload (Some "custom") None)))
           (PyKey (__init__ PaymentSigningKey sample_payload (Some "custom") None))
    = false.
Proof.
  apply (deserialize_drops_custom_key_type PaymentSigningKey sample_payload "custom" None).
  - discriminate.
  - discriminate.
Defined.

Lemma from_json_reads_three_fields_witness :
  @from_json flat_json byte_string_cbor StakeSigningKey sample_key_text true
  = @from_json flat_json byte_string_cbor StakeSigningKey sample_text_with_comment true.
Proof.
  apply (@from_json_reads_three_fields flat_json byte_string_cbor StakeSigningKey
           sample_key_text sample_text_with_comment true
           (JString <$> sample_dict) (JString <$> sample_dict_with_comment)).
  - apply flat_json_loads_dumps.
  - apply flat_json_loads_dumps.
  - intros f Hf. set_unfold in Hf.
    destruct Hf as [-> | [-> | [-> | []]]]; vm_compute; reflexivity.
Defined.

Lemma from_json_empty_type_witness :
  (∃ k, @from_json flat_json byte_string_cbor PaymentSigningKey
          sample_text_empty_type false = Ok k
        ∧ key_type k = KEY_TYPE PaymentSigningKey ∧ payload k = sample_payload)
  ∧ (concrete PaymentSigningKey = true →
     @from_json flat_json byte_string_cbor PaymentSigningKey
       sample_text_empty_type true = Raise InvalidKeyTypeException).
Proof.
  apply (@from_json_empty_type flat_json byte_string_cbor PaymentSigningKey
           sample_text_empty_type (JString <$> sample_dict_empty_type) (JString "")
           "Stake Signing Key" "43010203" [x43; x01; x02; x03] sample_payload).
  - apply flat_json_loads_dumps.
  - vm_compute. reflexivity.
  - right. reflexivity.
  - vm_compute. reflexivity.
  - vm_compute. reflexivity.
  - vm_compute. reflexivity.
  - vm_compute. reflexivity.
Defined.
